(** * Transport provisioning and generic consumer of multicluster-global-hub

    A shallow embedding of

    - [operator/pkg/controllers/hubofhubs/globalhub_middleware.go]
      (module [Middleware]): [ReconcileMiddleware], [ReconcileTransport],
      [ReconcileStorage], [detectTransportProtocol],
      [renderKafkaMetricsResources];
    - the generic consumer of package [consumer] (module [Consumer]):
      [NewGenericConsumer], [Start], [getInitOffset], [TransportID].

    Go's [error] interface is [option error] ([None] is [nil]); a Go function
    returning [(v, err)] returns a pair.  Everything outside the two files
    (the Kubernetes client, the transporter implementations, the database,
    the CloudEvents client) acts on an abstract cluster state and is a
    section variable.  Every call to a collaborator is recorded in a trace so
    that the order of calls can be stated. *)

From Stdlib Require Import ZArith List Ascii String Bool Lia.
From stdpp Require Import base option list strings gmap.

Import ListNotations.
Local Open Scope string_scope.
Local Open Scope Z_scope.

(** ** Durations ([time.Duration] counts nanoseconds) *)

Module Time.

Definition Duration := Z.
Definition Nanosecond : Duration := 1.
Definition Second : Duration := 1000000000.
Definition Minute : Duration := 60 * Second.

End Time.

(** ** Go errors *)

Section Errors.

(** [X] is the type of the error values produced by the collaborators. *)
Context {X : Type}.

Inductive error : Type :=
| External (x : X)                      (* returned by a collaborator *)
| ErrorsNew (msg : string)              (* errors.New(msg) *)
| Errorf_w (fmt : string) (e : error)   (* fmt.Errorf("... %w", e) *)
| Errorf_v (fmt : string) (e : error)   (* fmt.Errorf("... %v", e) *)
| Errorf_s (fmt : string) (a : string)  (* fmt.Errorf("... %s", a) *)
| DeadlineExceeded.                     (* context.DeadlineExceeded *)

(** [apierrors.IsNotFound] looks through [%w] wrappers ([errors.As]) for an
    API status error whose reason is NotFound; [notFound] tells which
    collaborator errors are of that kind. *)
Fixpoint IsNotFound (notFound : X -> bool) (e : error) : bool :=
  match e with
  | External x => notFound x
  | Errorf_w _ e' => IsNotFound notFound e'
  | ErrorsNew _ | Errorf_v _ _ | Errorf_s _ _ | DeadlineExceeded => false
  end.

End Errors.

Arguments error X : clear implicits.

(** ** globalhub_middleware.go *)

Module Middleware.

Import Time.

(** [transport.TransportProtocol]: the two values the file switches on. *)
Inductive TransportProtocol : Type :=
| StrimziTransporter   (* the managed broker, provisioned by the operator *)
| SecretTransporter.   (* bring-your-own: the transport secret exists *)

(** [transport.ClusterTopic] *)
Record ClusterTopic : Type := {
  SpecTopic : string;
  StatusTopic : string;
  EventTopic : string
}.

(** Constants of the packages [constants], [utils] and [transporter] that the
    file refers to by name only. *)
Record Constants : Type := {
  GHTransportSecretName : string;       (* constants.GHTransportSecretName *)
  DefaultNamespace : string;            (* utils.GetDefaultNamespace() *)
  DefaultGlobalHubKafkaUser : string;   (* transporter.DefaultGlobalHubKafkaUser *)
  GlobalHubClusterName : string;        (* transporter.GlobalHubClusterName *)
  IsCommunityMode : bool                (* operatorutils.IsCommunityMode() *)
}.

(** The calls that leave the file; the trace lists them in program order. *)
Inductive Call : Type :=
| CGetSecret (name namespace : string)      (* runtimeClient.Get of a Secret *)
| CRender                                   (* kafkaRenderer.Render("manifests/kafka") *)
| CNewDiscoveryClient                       (* discovery.NewDiscoveryClientForConfig *)
| CManipulateObj                            (* manipulateObj: create/update the objects *)
| CNewStrimziTransporter (community : bool)
| CNewBYOTransporter (namespace name : string)
| CCreateUser (user : string)
| CGenerateClusterTopic (cluster : string)
| CCreateTopic (topics : ClusterTopic)
| CGrantRead (user topic : string)
| CGrantWrite (user topic : string)
| CGetConnCredential (user : string)
| CSetTransporter                           (* config.SetTransporter *)
| CAddKafkaCRDController
| CGetPGConnectionFromGHStorageSecret
| CEnsureCrunchyPostgresSubscription
| CInitPostgresByStatefulset
| CEnsureCrunchyPostgres
| CGetPGConnectionFromBuildInPostgres
| CLogInfo (msg : string)                   (* r.Log.Info *)
| CSleep (d : Duration).                    (* the poll timer or the deadline *)

Section WithCollaborators.

Context {X K Conn PGConn MghRest Objs : Type}.

Abbreviation error := (error X).

(** [v1alpha4.MulticlusterGlobalHub], as far as the file reads it. *)
Record MulticlusterGlobalHub : Type := {
  Namespace : string;
  EnableMetrics : bool;           (* mgh.Spec.EnableMetrics *)
  Rest : MghRest
}.

(** [transport.Transporter]: the interface both provisioners implement.
    Every method acts on the cluster state [K]. *)
Record Transporter : Type := {
  CreateUser : string -> K -> option error * K;
  GenerateClusterTopic : string -> ClusterTopic;
  CreateTopic : ClusterTopic -> K -> option error * K;
  GrantRead : string -> string -> K -> option error * K;
  GrantWrite : string -> string -> K -> option error * K;
  GetConnCredential : string -> K -> (option Conn * option error) * K
}.

(** The collaborators. *)
Record Collaborators : Type := {
  consts : Constants;
  notFound : X -> bool;   (* which collaborator errors are NotFound *)
  clientGetSecret : string -> string -> K -> option error * K;
  rendererRender : K -> (Objs * option error) * K;
  newDiscoveryClient : K -> option error * K;
  manipulateObj : Objs -> MulticlusterGlobalHub -> K -> option error * K;
  NewStrimziTransporter :
    MulticlusterGlobalHub -> bool -> K -> (Transporter + error) * K;
  NewBYOTransporter : string -> string -> K -> Transporter * K;
  addKafkaCRDController : K -> option error * K;
  GetPGConnectionFromGHStorageSecret : K -> (option PGConn * option error) * K;
  GetInstallCrunchyOperator : MulticlusterGlobalHub -> bool;
  EnsureCrunchyPostgresSubscription : MulticlusterGlobalHub -> K -> option error * K;
  InitPostgresByStatefulset :
    MulticlusterGlobalHub -> K -> (option PGConn * option error) * K;
  EnsureCrunchyPostgres : K -> option error * K;
  GetPGConnectionFromBuildInPostgres : K -> (option PGConn * option error) * K;
  (* what the rest of the cluster does while the caller sleeps for [d] *)
  elapse : Duration -> K -> K
}.

Context (env : Collaborators).

(** [KafkaController]: the controller the CRD watcher starts; [conn] is nil
    until the broker reports a connection. *)
Record KafkaController_t : Type := { conn : option Conn }.

Definition Event : Type := Call * option error.

(** The reconciler [r], the package state of [config], the clock and the
    cluster, in one store. *)
Record State : Type := {
  cluster : K;
  clock : Duration;
  trace : list Event;
  KafkaInit : bool;                              (* r.KafkaInit *)
  KafkaController : option KafkaController_t;    (* r.KafkaController *)
  TransportConn : option Conn;                   (* r.MiddlewareConfig.TransportConn *)
  StorageConn : option PGConn;                   (* r.MiddlewareConfig.StorageConn *)
  transporter : option Transporter;              (* set by config.SetTransporter *)
  errorChan : list (option error)                (* the buffer of errorChan *)
}.

Definition set_cluster (k : K) (s : State) : State :=
  {| cluster := k; clock := clock s; trace := trace s; KafkaInit := KafkaInit s;
     KafkaController := KafkaController s; TransportConn := TransportConn s;
     StorageConn := StorageConn s; transporter := transporter s;
     errorChan := errorChan s |}.

Definition set_clock (t : Duration) (s : State) : State :=
  {| cluster := cluster s; clock := t; trace := trace s; KafkaInit := KafkaInit s;
     KafkaController := KafkaController s; TransportConn := TransportConn s;
     StorageConn := StorageConn s; transporter := transporter s;
     errorChan := errorChan s |}.

Definition set_trace (tr : list Event) (s : State) : State :=
  {| cluster := cluster s; clock := clock s; trace := tr; KafkaInit := KafkaInit s;
     KafkaController := KafkaController s; TransportConn := TransportConn s;
     StorageConn := StorageConn s; transporter := transporter s;
     errorChan := errorChan s |}.

Definition set_KafkaInit (b : bool) (s : State) : State :=
  {| cluster := cluster s; clock := clock s; trace := trace s; KafkaInit := b;
     KafkaController := KafkaController s; TransportConn := TransportConn s;
     StorageConn := StorageConn s; transporter := transporter s;
     errorChan := errorChan s |}.


Definition set_TransportConn (c : option Conn) (s : State) : State :=
  {| cluster := cluster s; clock := clock s; trace := trace s; KafkaInit := KafkaInit s;
     KafkaController := KafkaController s; TransportConn := c;
     StorageConn := StorageConn s; transporter := transporter s;
     errorChan := errorChan s |}.

Definition set_StorageConn (c : option PGConn) (s : State) : State :=
  {| cluster := cluster s; clock := clock s; trace := trace s; KafkaInit := KafkaInit s;
     KafkaController := KafkaController s; TransportConn := TransportConn s;
     StorageConn := c; transporter := transporter s;
     errorChan := errorChan s |}.

Definition set_transporter (t : option Transporter) (s : State) : State :=
  {| cluster := cluster s; clock := clock s; trace := trace s; KafkaInit := KafkaInit s;
     KafkaController := KafkaController s; TransportConn := TransportConn s;
     StorageConn := StorageConn s; transporter := t;
     errorChan := errorChan s |}.

Definition set_errorChan (c : list (option error)) (s : State) : State :=
  {| cluster := cluster s; clock := clock s; trace := trace s; KafkaInit := KafkaInit s;
     KafkaController := KafkaController s; TransportConn := TransportConn s;
     StorageConn := StorageConn s; transporter := transporter s;
     errorChan := c |}.

(** *** The state monad of the file *)

Definition M (A : Type) : Type := State -> A * State.

Definition ret {A} (a : A) : M A := fun s => (a, s).

Definition bind {A B} (m : M A) (f : A -> M B) : M B :=
  fun s => let (a, s') := m s in f a s'.

Notation "'do' x <- m ; k" := (bind m (fun x => k))
  (at level 10, x name, m at level 99, k at level 200).
Notation "'do' ' p <- m ; k" := (bind m (fun x => match x with p => k end))
  (at level 10, p pattern, m at level 99, k at level 200).
Notation "m ;; k" := (bind m (fun _ => k))
  (at level 100, k at level 200, right associativity).

(** A call to a collaborator: run it on the cluster and record it, with the
    error it returned. *)
Definition call {A} (c : Call) (err : A -> option error) (f : K -> A * K) : M A :=
  fun s =>
    let (a, k') := f (cluster s) in
    (a, set_trace (trace s ++ [(c, err a)]) (set_cluster k' s)).

Definition note (c : Call) : M unit :=
  fun s => (tt, set_trace (trace s ++ [(c, None)]) s).

Definition sleep (d : Duration) : M unit :=
  fun s =>
    let d' := Z.max 0 d in
    (tt, set_trace (trace s ++ [(CSleep d', None)])
           (set_clock (clock s + d') (set_cluster (elapse env d' (cluster s)) s))).

Definition modify (f : State -> State) : M unit := fun s => (tt, f s).

(** A send on [errorChan]: the value joins the buffer. *)
Definition send (e : option error) : M unit :=
  modify (fun s => set_errorChan (errorChan s ++ [e]) s).

Definition gets {A} (f : State -> A) : M A := fun s => (f s, s).

(** Go's [err = f(); if err != nil { return nil, err }]. *)
Definition orReturn {A} (m : M (option error)) (k : M (option A * option error))
  : M (option A * option error) :=
  do err <- m ;
  match err with
  | Some e => ret (None, Some e)
  | None => k
  end.

Notation "'attempt' m ; k" := (orReturn m k)
  (at level 10, m at level 99, k at level 200).

(** *** [wait.PollUntilContextTimeout] (k8s.io/apimachinery)

    The library sets a deadline [timeout] from now and a timer that fires
    every [interval]; with [immediate] the condition runs once before the
    first wait.  Each round waits for the deadline or the timer, whichever
    comes first (the deadline when both are due), and on a timer tick runs
    the condition.  A condition that returns an error ends the poll with that
    error; one that returns [true] ends it with nil; at the deadline the poll
    returns [context.DeadlineExceeded].  [ticksBefore] counts the timer ticks
    that come strictly before the deadline.  The variables the closure
    captures are threaded through as [l].  The context of the caller is
    taken not to be cancelled while the poll runs. *)

Definition ticksBefore (interval timeout : Duration) : nat :=
  if interval <=? 0 then 0%nat else Z.to_nat ((timeout - 1) / interval).

Fixpoint pollLoop {L} (ticks : nat) (interval remaining : Duration)
    (condition : L -> M (L * (bool * option error))) (l : L)
  : M (L * option error) :=
  match ticks with
  | O => sleep remaining ;; ret (l, Some DeadlineExceeded)
  | S n =>
      sleep interval ;;
      do '(l', (ok, err)) <- condition l ;
      match err with
      | Some e => ret (l', Some e)
      | None =>
          if ok then ret (l', None)
          else pollLoop n interval (remaining - interval) condition l'
      end
  end.

Definition PollUntilContextTimeout {L} (interval timeout : Duration)
    (immediate : bool) (condition : L -> M (L * (bool * option error))) (l : L)
  : M (L * option error) :=
  let loop := pollLoop (ticksBefore interval timeout) interval timeout condition in
  if immediate then
    do '(l', (ok, err)) <- condition l ;
    match err with
    | Some e => ret (l', Some e)
    | None => if ok then ret (l', None) else loop l'
    end
  else loop l.

(** *** The functions of the file *)

Definition detectTransportProtocol : M (TransportProtocol * option error) :=
  let name := GHTransportSecretName (consts env) in
  let ns := DefaultNamespace (consts env) in
  do err <- call (CGetSecret name ns) id (clientGetSecret env name ns) ;
  match err with
  | None => ret (SecretTransporter, None)
  | Some e =>
      if negb (IsNotFound (notFound env) e) then ret (SecretTransporter, Some e)
      else ret (StrimziTransporter, None)
  end.

Definition renderKafkaMetricsResources (mgh : MulticlusterGlobalHub)
  : M (option error) :=
  if EnableMetrics mgh then
    do '(kafkaObjects, err) <- call CRender snd (rendererRender env) ;
    match err with
    | Some e => ret (Some (Errorf_w "failed to render kafka manifests: %w" e))
    | None =>
        do err <- call CNewDiscoveryClient id (newDiscoveryClient env) ;
        match err with
        | Some e => ret (Some e)
        | None =>
            do err <- call CManipulateObj id (manipulateObj env kafkaObjects mgh) ;
            match err with
            | Some e =>
                ret (Some (Errorf_w "failed to create/update kafka objects: %w" e))
            | None => ret None
            end
        end
    end
  else ret None.

(** The closure handed to the poll in [ReconcileTransport]; it assigns the
    captured [conn] and [err]. *)
Definition credentialCondition (trans : Transporter)
    (l : option Conn * option error)
  : M ((option Conn * option error) * (bool * option error)) :=
  let user := DefaultGlobalHubKafkaUser (consts env) in
  do '(conn, err) <- call (CGetConnCredential user) snd (GetConnCredential trans user) ;
  match err with
  | Some e =>
      note (CLogInfo "waiting the kafka connection credential to be ready...") ;;
      ret ((conn, err), (false, Some e))
  | None => ret ((conn, err), (true, None))
  end.

(** The switch of [ReconcileTransport] that creates the transport instance;
    [inr] is the error of [NewStrimziTransporter]. *)
Definition newTransporter (mgh : MulticlusterGlobalHub)
    (transProtocol : TransportProtocol) : M (Transporter + error) :=
  match transProtocol with
  | StrimziTransporter =>
      let community := IsCommunityMode (consts env) in
      call (CNewStrimziTransporter community)
        (fun r => match r with inl _ => None | inr e => Some e end)
        (NewStrimziTransporter env mgh community)
  | SecretTransporter =>
      let name := GHTransportSecretName (consts env) in
      do t <- call (CNewBYOTransporter (Namespace mgh) name) (fun _ => None)
                (NewBYOTransporter env (Namespace mgh) name) ;
      ret (inl t)
  end.

Definition ReconcileTransport (mgh : MulticlusterGlobalHub)
    (transProtocol : TransportProtocol) : M (option Conn * option error) :=
  let user := DefaultGlobalHubKafkaUser (consts env) in
  (* apply kafka metric resources *)
  attempt renderKafkaMetricsResources mgh ;
  (* create the transport instance *)
  do created <- newTransporter mgh transProtocol ;
  match created with
  | inr e => ret (None, Some e)
  | inl trans =>
      (* create the user to connect the transport instance *)
      attempt call (CCreateUser user) id (CreateUser trans user) ;
      (* create global hub topics *)
      do topics <-
        (note (CGenerateClusterTopic (GlobalHubClusterName (consts env))) ;;
         ret (GenerateClusterTopic trans (GlobalHubClusterName (consts env)))) ;
      attempt call (CCreateTopic topics) id (CreateTopic trans topics) ;
      (* grant permission: read - status,event, write - spec *)
      attempt call (CGrantRead user (EventTopic topics)) id
                (GrantRead trans user (EventTopic topics)) ;
      attempt call (CGrantRead user (StatusTopic topics)) id
                (GrantRead trans user (StatusTopic topics)) ;
      attempt call (CGrantWrite user (SpecTopic topics)) id
                (GrantWrite trans user (SpecTopic topics)) ;
      do '((conn, _), err) <-
        PollUntilContextTimeout (2 * Second) (10 * Minute) true
          (credentialCondition trans) (None, None) ;
      (* if trans != nil *)
      note CSetTransporter ;;
      modify (set_transporter (Some trans)) ;;
      ret (conn, err)
  end.

(** The closure handed to the poll in [ReconcileStorage]; it assigns the
    captured [pgConnection] and [err], and never returns an error. *)
Definition storageCondition (l : option PGConn * option error)
  : M ((option PGConn * option error) * (bool * option error)) :=
  let '(pgConnection, err) := l in
  do e <- call CEnsureCrunchyPostgres id (EnsureCrunchyPostgres env) ;
  match e with
  | Some _ =>
      note (CLogInfo "waiting the postgres cluster to be ready...") ;;
      ret ((pgConnection, err), (false, None))
  | None =>
      do '(pgConnection', err') <-
        call CGetPGConnectionFromBuildInPostgres snd
          (GetPGConnectionFromBuildInPostgres env) ;
      match err' with
      | Some _ =>
          note (CLogInfo "waiting the postgres connection credential to be ready...") ;;
          ret ((pgConnection', err'), (false, None))
      | None => ret ((pgConnection', err'), (true, None))
      end
  end.

Definition ReconcileStorage (mgh : MulticlusterGlobalHub)
  : M (option PGConn * option error) :=
  (* support BYO postgres *)
  do '(pgConnection, err) <-
    call CGetPGConnectionFromGHStorageSecret snd
      (GetPGConnectionFromGHStorageSecret env) ;
  match err with
  | None => ret (pgConnection, None)
  | Some e =>
      if negb (IsNotFound (notFound env) e) then ret (None, Some e)
      else
        (* then the storage secret is not found *)
        do '(pgConnection, err) <-
          (if GetInstallCrunchyOperator env mgh then
             do err <- call CEnsureCrunchyPostgresSubscription id
                         (EnsureCrunchyPostgresSubscription env mgh) ;
             ret (pgConnection, err)
           else
             call CInitPostgresByStatefulset snd (InitPostgresByStatefulset env mgh)) ;
        match err with
        | Some e => ret (None, Some e)
        | None =>
            let crunchy :=
              match pgConnection with None => true | Some _ => false end
              && GetInstallCrunchyOperator env mgh in
            attempt (if crunchy
                     then call CEnsureCrunchyPostgres id (EnsureCrunchyPostgres env)
                     else ret None) ;
            if crunchy then
              (* store crunchy postgres connection *)
              do '((pgConnection, _), _) <-
                PollUntilContextTimeout (2 * Second) (10 * Minute) true
                  storageCondition (pgConnection, Some e) ;
              ret (pgConnection, None)
            else ret (pgConnection, None)
        end
  end.

(** [ctrl.Result] *)
Record Result : Type := { Requeue : bool; RequeueAfter : Duration }.

(** The end of the managed branch of the first goroutine:
    [if r.KafkaController == nil || r.KafkaController.conn == nil] the task
    reports that the controller is not ready, otherwise it stores the
    controller's connection. *)
Definition controllerCheck : M unit :=
  do kc <- gets KafkaController ;
  match kc with
  | Some {| conn := Some c |} => modify (set_TransportConn (Some c))
  | _ => send (Some (ErrorsNew "the kafka controller is not ready"))
  end.

(** The first goroutine of [ReconcileMiddleware]: initialize transport.
    [r.KafkaController] is written by the controller that the CRD watcher
    starts, not by this file: the task only reads it. *)
Definition transportTask (mgh : MulticlusterGlobalHub) : M unit :=
  do '(transProtocol, err) <- detectTransportProtocol ;
  match err with
  | Some _ => send err
  | None =>
      match transProtocol with
      | SecretTransporter =>
          do '(conn, e) <- ReconcileTransport mgh transProtocol ;
          (match e with Some _ => send e | None => ret tt end) ;;
          modify (set_TransportConn conn)
      | StrimziTransporter =>
          (* strimzi transporter -> use the kafka reconciler to get the connection *)
          do init <- gets KafkaInit ;
          do continue <-
            (if negb init then
               do '(_, e) <- ReconcileTransport mgh transProtocol ;
               match e with
               | Some _ => send e ;; ret false
               | None =>
                   do err <- call CAddKafkaCRDController id (addKafkaCRDController env) ;
                   match err with
                   | Some _ => send err ;; ret false
                   | None => modify (set_KafkaInit true) ;; ret true
                   end
               end
             else ret true) ;
          if continue then controllerCheck else ret tt
      end
  end.

(** The second goroutine: initialize storage. *)
Definition storageTask (mgh : MulticlusterGlobalHub) : M unit :=
  do '(conn, e) <- ReconcileStorage mgh ;
  (match e with Some _ => send e | None => ret tt end) ;;
  modify (set_StorageConn conn).

(** [errorChan := make(chan error, 2)] *)
Definition errorChanCap : nat := 2.

(** [for err := range errorChan]: the first non-nil error decides. *)
Fixpoint rangeErrorChan (ch : list (option error)) : Result * option error :=
  match ch with
  | [] => ({| Requeue := false; RequeueAfter := 0 |}, None)
  | Some err :: _ =>
      ({| Requeue := false; RequeueAfter := 5 * Second |},
       Some (Errorf_v "middleware not ready, Error: %v" err))
  | None :: ch' => rangeErrorChan ch'
  end.

(** [ReconcileMiddleware].  The two goroutines are run one after the other,
    in the order [transportFirst] chooses; the store returned is the one
    reached once both have finished, the result is what the range loop
    computes from the errors in the order they were sent. *)
Definition ReconcileMiddleware (transportFirst : bool) (mgh : MulticlusterGlobalHub)
  : M (Result * option error) :=
  modify (set_errorChan []) ;;
  (if transportFirst then transportTask mgh ;; storageTask mgh
   else storageTask mgh ;; transportTask mgh) ;;
  do ch <- gets errorChan ;
  ret (rangeErrorChan ch).

(** *** The host, and what is observed of a run *)




Definition succeeded (c : Call) : Event := (c, None).

Definition isMetricsCall (c : Call) : bool :=
  match c with
  | CRender | CNewDiscoveryClient | CManipulateObj => true
  | _ => false
  end.

Definition isTransporterCall (c : Call) : bool :=
  match c with
  | CCreateUser _ | CGenerateClusterTopic _ | CCreateTopic _
  | CGrantRead _ _ | CGrantWrite _ _ | CGetConnCredential _ => true
  | _ => false
  end.

Definition isPollCall (c : Call) : bool :=
  match c with
  | CGetConnCredential _ | CLogInfo _ | CSleep _ => true
  | _ => false
  end.

Definition isAddKafkaCRDController (c : Call) : bool :=
  match c with
  | CAddKafkaCRDController => true
  | _ => false
  end.

(** The watcher is installed by a call of [addKafkaCRDController] that
    returns nil. *)
Definition isInstall (ev : Event) : bool :=
  match ev with
  | (CAddKafkaCRDController, None) => true
  | _ => false
  end.

Definition installs (tr : list Event) : nat := length (List.filter isInstall tr).

(** What a goroutine sent on [errorChan] when started in [s]. *)
Definition reported (task : M unit) (s : State) : list (option error) :=
  drop (length (errorChan s)) (errorChan (snd (task s))).

Definition isGetSecret (c : Call) : bool :=
  match c with
  | CGetSecret _ _ => true
  | _ => false
  end.

(** What a goroutine may do to the reconciler: the controller is left
    alone, at most one error, never nil, is sent, and the watcher is
    installed only when [KafkaInit] was false, which sets it. *)
Definition taskEffect (s s' : State) : Prop :=
  KafkaController s' = KafkaController s /\
  (exists rep, errorChan s' = (errorChan s ++ rep)%list /\
               (rep = [] \/ exists e, rep = [Some e])) /\
  ((KafkaInit s' = KafkaInit s /\ installs (trace s') = installs (trace s)) \/
   (KafkaInit s = false /\ KafkaInit s' = true /\
    installs (trace s') = S (installs (trace s)))).


Definition isSleep (c : Call) : bool :=
  match c with
  | CSleep _ => true
  | _ => false
  end.

Definition isGetConnCredential (c : Call) : bool :=
  match c with
  | CGetConnCredential _ => true
  | _ => false
  end.

(** [frame p s s']: from [s] to [s'] the fields of the reconciler and the
    buffer of the channel are as they were, and the trace grew by calls that
    satisfy [p]. *)
Definition frame (p : Call -> bool) (s s' : State) : Prop :=
  KafkaInit s' = KafkaInit s /\ KafkaController s' = KafkaController s /\
  TransportConn s' = TransportConn s /\ StorageConn s' = StorageConn s /\
  errorChan s' = errorChan s /\
  exists evs, trace s' = (trace s ++ evs)%list /\
              forallb (fun ev => p (fst ev)) evs = true.

(** Every run of [m] relates the store before to the store after by [R]. *)
Definition respects (R : State -> State -> Prop) {A} (m : M A) : Prop :=
  forall s, R s (snd (m s)).

(** The calls [ReconcileTransport] makes, and those [ReconcileStorage] makes. *)
Definition isTransportCall (c : Call) : bool :=
  match c with
  | CRender | CNewDiscoveryClient | CManipulateObj
  | CNewStrimziTransporter _ | CNewBYOTransporter _ _
  | CCreateUser _ | CGenerateClusterTopic _ | CCreateTopic _
  | CGrantRead _ _ | CGrantWrite _ _ | CGetConnCredential _
  | CSetTransporter | CLogInfo _ | CSleep _ => true
  | _ => false
  end.

(** The calls of [ReconcileTransport] after the metric resources. *)
Definition isProvisioningCall (c : Call) : bool :=
  isTransportCall c && negb (isMetricsCall c).

Definition isStorageCall (c : Call) : bool :=
  match c with
  | CGetPGConnectionFromGHStorageSecret | CEnsureCrunchyPostgresSubscription
  | CInitPostgresByStatefulset | CEnsureCrunchyPostgres
  | CGetPGConnectionFromBuildInPostgres | CLogInfo _ | CSleep _ => true
  | _ => false
  end.

End WithCollaborators.

End Middleware.

(** ** The generic consumer (package [consumer]) *)

(** The fragment of POSIX regular expressions the offset query uses with
    PostgreSQL's [~]: a leading [^] anchors the match at the start, a
    character stands for itself, [.] for any character, and a postfix [*]
    repeats the character before it zero or more times.  The match is not
    anchored at the end. *)
Module Regex.

Inductive atom : Type := Lit (c : ascii) | AnyChar.

Record item : Type := { it_atom : atom; it_star : bool }.

Definition atomMatches (a : atom) (c : ascii) : bool :=
  match a with
  | Lit c' => Ascii.eqb c' c
  | AnyChar => true
  end.

Definition toAtom (c : ascii) : atom :=
  if Ascii.eqb c "."%char then AnyChar else Lit c.

Fixpoint parseItems (p : list ascii) : list item :=
  match p with
  | [] => []
  | c :: p' =>
      match p' with
      | star :: p'' =>
          if Ascii.eqb star "*"%char
          then {| it_atom := toAtom c; it_star := true |} :: parseItems p''
          else {| it_atom := toAtom c; it_star := false |} :: parseItems p'
      | [] => [{| it_atom := toAtom c; it_star := false |}]
      end
  end.

Fixpoint matchHere (re : list item) (s : string) {struct re} : bool :=
  match re with
  | [] => true
  | {| it_atom := a; it_star := false |} :: re' =>
      match s with
      | EmptyString => false
      | String c s' => atomMatches a c && matchHere re' s'
      end
  | {| it_atom := a; it_star := true |} :: re' =>
      (fix repeat (s : string) : bool :=
         matchHere re' s
         || match s with
            | EmptyString => false
            | String c s' => atomMatches a c && repeat s'
            end) s
  end.

Fixpoint matchAnywhere (re : list item) (s : string) : bool :=
  matchHere re s
  || match s with
     | EmptyString => false
     | String _ s' => matchAnywhere re s'
     end.

(** [s ~ pattern] *)
Definition matches (pattern s : string) : bool :=
  match list_ascii_of_string pattern with
  | c :: p' =>
      if Ascii.eqb c "^"%char then matchHere (parseItems p') s
      else matchAnywhere (parseItems (c :: p')) s
  | [] => true
  end.

End Regex.

Module Consumer.

(** [ceprotocol.Result]: what the receive callback hands back. *)
Inductive Result : Type := ResultACK | ResultNACK.

(** [kafka.TopicPartition], as far as [getInitOffset] fills it. *)
Record TopicPartition : Type := {
  Topic : string;
  Partition : Z;     (* int32 *)
  Offset : Z         (* kafka.Offset, an int64 *)
}.

(** [transport.EventPosition], the payload of an offset record. *)
Record EventPosition : Type := {
  pos_OwnerIdentity : string;
  pos_Partition : Z;
  pos_Offset : Z
}.

Section WithCollaborators.

Context {X CEvent Chunk Payload Assembler Receiver Client ConfigMap JSON KafkaRest
         : Type}.

Abbreviation error := (error X).

(** [models.Transport]: a row of the table the offsets are stored in. *)
Record Transport : Type := {
  Name : string;
  Payload_ : JSON      (* the jsonb column [payload] *)
}.

(** The database behind [database.GetGorm()]: the rows of the table, and
    the error of the query when the database cannot answer. *)
Record Database : Type := {
  transports : list Transport;
  findError : option error
}.

Record KafkaConfig_t : Type := {
  ClusterIdentity : string;
  kafkaRest : KafkaRest
}.

(** [transport.TransportConfig]; [Extends] is a map that may be nil. *)
Record TransportConfig : Type := {
  TransportType : string;
  KafkaConfig : KafkaConfig_t;
  Extends : option (gmap string Receiver)
}.

Record Collaborators : Type := {
  Kafka : string;                   (* string(transport.Kafka) *)
  Chan : string;                    (* string(transport.Chan) *)
  GetConfluentConfigMap : KafkaConfig_t -> bool -> ConfigMap + error;
  kafka_confluent_New : ConfigMap -> list string -> Receiver + error;
  gochan_New : nat -> Receiver;     (* the n-th channel pair allocated *)
  cloudevents_NewClient : option Receiver -> Client + error;
  newMessageAssembler : Assembler;
  messageChunk : Assembler -> CEvent -> option Chunk * Assembler;
  assemble : Assembler -> Chunk -> option Payload * Assembler;
  SetData : CEvent -> Payload -> CEvent * option error;
  (* the SQL operator [->>]: the field as text, NULL when there is none *)
  jsonText : JSON -> string -> option string;
  jsonUnmarshal : JSON -> EventPosition + error;
  (* the messages the client delivers, given the start positions in the
     receive context, and the error the receiver stops with *)
  StartReceiver : Client -> option (list TopicPartition) -> list CEvent * option error
}.

Context (env : Collaborators).

Record GenericConsumer : Type := {
  client : Client;
  assembler : Assembler;
  eventChan : list CEvent;          (* the events sent on the channel so far *)
  consumeTopics : list string;
  clusterIdentity : string;
  enableDatabaseOffset : bool
}.

(** The package-level state: [transportID], the database handle, and the
    number of channel pairs [gochan.New] has allocated. *)
Record Globals : Type := {
  transportID : string;
  gorm : Database;
  allocated : nat
}.

Definition GenericConsumeOption : Type := GenericConsumer -> GenericConsumer * option error.

Definition EnableDatabaseOffset (enableOffset : bool) : GenericConsumeOption :=
  fun c =>
    ({| client := client c; assembler := assembler c; eventChan := eventChan c;
        consumeTopics := consumeTopics c; clusterIdentity := clusterIdentity c;
        enableDatabaseOffset := enableOffset |}, None).

Fixpoint applyOptions (c : GenericConsumer) (opts : list GenericConsumeOption)
  : GenericConsumer * option error :=
  match opts with
  | [] => (c, None)
  | fn :: opts' =>
      match fn c with
      | (c', Some e) => (c', Some e)
      | (c', None) => applyOptions c' opts'
      end
  end.

Definition getConfluentReceiverProtocol (transportConfig : TransportConfig)
    (topics : list string) : Receiver + error :=
  match GetConfluentConfigMap env (KafkaConfig transportConfig) false with
  | inr e => inr e
  | inl configMap => kafka_confluent_New env configMap topics
  end.

Definition set_transportID (id : string) (g : Globals) : Globals :=
  {| transportID := id; gorm := gorm g; allocated := allocated g |}.

Definition set_Extends (m : gmap string Receiver) (t : TransportConfig)
  : TransportConfig :=
  {| TransportType := TransportType t; KafkaConfig := KafkaConfig t;
     Extends := Some m |}.

(** The part of [NewGenericConsumer] after the switch. *)
Definition construct (receiver : option Receiver) (clusterIdentity : string)
    (topics : list string) (opts : list GenericConsumeOption)
    (tranConfig : TransportConfig) (g : Globals)
  : (option GenericConsumer * option error) * TransportConfig * Globals :=
  match cloudevents_NewClient env receiver with
  | inr e => ((None, Some e), tranConfig, g)
  | inl cl =>
      let c := {| client := cl; assembler := newMessageAssembler env;
                  eventChan := []; consumeTopics := topics;
                  clusterIdentity := clusterIdentity;
                  enableDatabaseOffset := false |} in
      match applyOptions c opts with
      | (_, Some e) => ((None, Some e), tranConfig, g)
      | (c', None) => ((Some c', None), tranConfig, set_transportID clusterIdentity g)
      end
  end.

Definition NewGenericConsumer (tranConfig : TransportConfig) (topics : list string)
    (opts : list GenericConsumeOption) (g : Globals)
  : (option GenericConsumer * option error) * TransportConfig * Globals :=
  if String.eqb (TransportType tranConfig) (Kafka env) then
    match getConfluentReceiverProtocol tranConfig topics with
    | inr e => ((None, Some e), tranConfig, g)
    | inl receiver =>
        construct (Some receiver) (ClusterIdentity (KafkaConfig tranConfig))
          topics opts tranConfig g
    end
  else if String.eqb (TransportType tranConfig) (Chan env) then
    let extends : gmap string Receiver :=
      match Extends tranConfig with Some m => m | None => ∅ end in
    let topic := match topics with t :: _ => t | [] => "event" end in
    let '(extends, g) :=
      match extends !! topic with
      | Some _ => (extends, g)
      | None =>
          (<[topic := gochan_New env (allocated g)]> extends,
           {| transportID := transportID g; gorm := gorm g;
              allocated := S (allocated g) |})
      end in
    construct (extends !! topic) "kafka-cluster-chan" topics opts
      (set_Extends extends tranConfig) g
  else
    ((None, Some (Errorf_s "transport-type - %s is not a valid option"
                    (TransportType tranConfig))), tranConfig, g).

Definition TransportID (g : Globals) : string := transportID g.

Definition EventChan (c : GenericConsumer) : list CEvent := eventChan c.

(** [getInitOffset]: the query
    [name ~ '^status*' AND payload->>'ownerIdentity' <> '' AND
     payload->>'ownerIdentity' = kafkaClusterIdentity], then one
    [kafka.TopicPartition] per row found. *)
Definition selected (kafkaClusterIdentity : string) (row : Transport) : bool :=
  Regex.matches "^status*" (Name row)
  && match jsonText env (Payload_ row) "ownerIdentity" with
     | Some owner =>
         negb (String.eqb owner "") && String.eqb owner kafkaClusterIdentity
     | None => false
     end.

Fixpoint toOffsets (positions : list Transport) (offsetToStart : list TopicPartition)
  : list TopicPartition * option error :=
  match positions with
  | [] => (offsetToStart, None)
  | pos :: positions' =>
      match jsonUnmarshal env (Payload_ pos) with
      | inr e => ([], Some e)
      | inl kafkaPosition =>
          toOffsets positions'
            (offsetToStart ++
               [{| Topic := Name pos; Partition := pos_Partition kafkaPosition;
                   Offset := pos_Offset kafkaPosition |}])
      end
  end.

Definition getInitOffset (kafkaClusterIdentity : string) (g : Globals)
  : list TopicPartition * option error :=
  match findError (gorm g) with
  | Some e => ([], Some e)
  | None =>
      toOffsets (List.filter (fun row => selected kafkaClusterIdentity row)
                   (transports (gorm g))) []
  end.

Definition set_assembler (a : Assembler) (c : GenericConsumer) : GenericConsumer :=
  {| client := client c; assembler := a; eventChan := eventChan c;
     consumeTopics := consumeTopics c; clusterIdentity := clusterIdentity c;
     enableDatabaseOffset := enableDatabaseOffset c |}.

(** [c.eventChan <- &event] *)
Definition forward (event : CEvent) (c : GenericConsumer) : GenericConsumer :=
  {| client := client c; assembler := assembler c; eventChan := eventChan c ++ [event];
     consumeTopics := consumeTopics c; clusterIdentity := clusterIdentity c;
     enableDatabaseOffset := enableDatabaseOffset c |}.

(** The callback [Start] hands to [StartReceiver]. *)
Definition receive (c : GenericConsumer) (event : CEvent) : Result * GenericConsumer :=
  let '(chunk, a) := messageChunk env (assembler c) event in
  let c := set_assembler a c in
  match chunk with
  | None => (ResultACK, forward event c)
  | Some chunk =>
      let '(payload, a) := assemble env (assembler c) chunk in
      let c := set_assembler a c in
      match payload with
      | Some payload =>
          match SetData env event payload with
          | (_, Some _) => (ResultACK, c)     (* logged, not forwarded *)
          | (event, None) => (ResultACK, forward event c)
          end
      | None => (ResultACK, c)
      end
  end.

Fixpoint receiveAll (c : GenericConsumer) (events : list CEvent)
  : list Result * GenericConsumer :=
  match events with
  | [] => ([], c)
  | event :: events' =>
      let '(r, c) := receive c event in
      let '(rs, c) := receiveAll c events' in
      (r :: rs, c)
  end.

(** What a call of [Start] did: the start positions handed to the receive
    binding ([None] inside when the context was left as it was; [None]
    outside when the receiver was never started), the results of the
    callback, the consumer afterwards, and the error returned. *)
Record Started : Type := {
  receiveContext : option (option (list TopicPartition));
  acks : list Result;
  consumer : GenericConsumer;
  startError : option error
}.

Definition runReceiver (c : GenericConsumer)
    (receiveContext : option (list TopicPartition)) : Started :=
  let '(events, err) := StartReceiver env (client c) receiveContext in
  let '(rs, c') := receiveAll c events in
  {| receiveContext := Some receiveContext; acks := rs; consumer := c';
     startError :=
       match err with
       | Some e => Some (Errorf_w "failed to start Receiver: %w" e)
       | None => None
       end |}.

Definition Start (c : GenericConsumer) (g : Globals) : Started :=
  if enableDatabaseOffset c then
    match getInitOffset (clusterIdentity c) g with
    | (_, Some e) =>
        {| receiveContext := None; acks := []; consumer := c; startError := Some e |}
    | (offsets, None) =>
        if (0 <? length offsets)%nat then runReceiver c (Some offsets)
        else runReceiver c None
    end
  else runReceiver c None.

(** *** What is observed of a consumer *)


(** The cluster identity [NewGenericConsumer] takes for a configuration it
    accepts. *)
Definition assignedIdentity (tranConfig : TransportConfig) : string :=
  if String.eqb (TransportType tranConfig) (Kafka env)
  then ClusterIdentity (KafkaConfig tranConfig)
  else "kafka-cluster-chan".

End WithCollaborators.

End Consumer.

(** ** A concrete consumer, to run the functions on *)

Module ConsumerScenario.

Import Consumer.

(** An event: its id, its data, and the chunk metadata if it is a chunk. *)
Record Envelope : Type := {
  env_id : string;
  env_data : string;
  env_chunk : option (string * nat * nat)    (* group key, index, total *)
}.

Record Chunk : Type := {
  groupKey : string;
  index : nat;
  total : nat;
  bytes : string
}.

(** Modelled from the spec: the chunk assembler ([messageAssembler], whose
    file is not among the sources), after the component ChunkAssembler: the
    state of a group maps a chunk index to the bytes received; a chunk is
    recorded at its index, a duplicate overwriting the earlier one; when the
    number of recorded indices equals the total the bytes are concatenated
    in index order, the state is removed and the payload returned; otherwise
    nothing is returned. *)
Definition onChunk (a : gmap string (gmap nat string)) (ch : Chunk)
  : option string * gmap string (gmap nat string) :=
  let st : gmap nat string := default ∅ (a !! groupKey ch) in
  let st' : gmap nat string := <[index ch := bytes ch]> st in
  if decide (size st' = total ch) then
    (Some (String.concat "" ((fun i => default "" (st' !! i)) <$> seq 0 (total ch))),
     delete (groupKey ch) a)
  else (None, <[groupKey ch := st']> a).

(** A parsed [jsonb] payload of an offset record. *)
Record Position : Type := {
  ownerIdentity : option string;
  partition : Z;
  offset : Z
}.

Definition bus : @Collaborators string Envelope Chunk string
                   (gmap string (gmap nat string)) nat nat unit Position unit :=
  {| Kafka := "kafka";
     Chan := "chan";
     GetConfluentConfigMap := fun _ _ => inl tt;
     kafka_confluent_New := fun _ _ => inl 0%nat;
     gochan_New := fun n => S n;
     cloudevents_NewClient := fun r =>
       match r with
       | Some r => inl r
       | None => inr (ErrorsNew "no protocol")
       end;
     newMessageAssembler := ∅;
     messageChunk := fun a e =>
       (match env_chunk e with
        | Some (key, i, n) =>
            Some {| groupKey := key; index := i; total := n; bytes := env_data e |}
        | None => None
        end, a);
     assemble := fun a ch => onChunk a ch;
     SetData := fun e payload =>
       ({| env_id := env_id e; env_data := payload; env_chunk := env_chunk e |}, None);
     jsonText := fun p field =>
       if String.eqb field "ownerIdentity" then ownerIdentity p else None;
     jsonUnmarshal := fun p =>
       inl {| pos_OwnerIdentity := default "" (ownerIdentity p);
              pos_Partition := partition p; pos_Offset := offset p |};
     StartReceiver := fun _ _ => ([], None) |}.

Definition kafkaConfig (identity : string) : @TransportConfig nat unit :=
  {| TransportType := "kafka";
     KafkaConfig := {| ClusterIdentity := identity; kafkaRest := tt |};
     Extends := None |}.

Definition chanConfig : @TransportConfig nat unit :=
  {| TransportType := "chan";
     KafkaConfig := {| ClusterIdentity := ""; kafkaRest := tt |};
     Extends := None |}.

(** The offset store of the scenario: one record of [cluster-x], one of
    another cluster, and one of [cluster-x] for a topic that is not a status
    topic. *)
Definition offsetStore : @Database string Position :=
  {| transports :=
       [ {| Name := "status.hub1";
            Payload_ := {| ownerIdentity := Some "cluster-x"; partition := 0;
                           offset := 42 |} |};
         {| Name := "status.hub2";
            Payload_ := {| ownerIdentity := Some "cluster-y"; partition := 0;
                           offset := 7 |} |};
         {| Name := "spec";
            Payload_ := {| ownerIdentity := Some "cluster-x"; partition := 1;
                           offset := 9 |} |} ];
     findError := None |}.

Definition globals0 : @Globals string Position :=
  {| transportID := ""; gorm := offsetStore; allocated := 0 |}.

(** A consumer of [cluster-x] with offset recovery enabled. *)
Definition consumerX : @GenericConsumer Envelope (gmap string (gmap nat string)) nat :=
  {| client := 0%nat; assembler := ∅; eventChan := []; consumeTopics := ["status"];
     clusterIdentity := "cluster-x"; enableDatabaseOffset := true |}.

Definition whole : Envelope :=
  {| env_id := "m1"; env_data := "hello"; env_chunk := None |}.

Definition part (i : nat) (data : string) : Envelope :=
  {| env_id := "m2"; env_data := data; env_chunk := Some ("g", i, 2%nat) |}.

End ConsumerScenario.

(** ** A concrete cluster, to run the functions on *)

Module Scenario.

Import Time Middleware.

(** What a lookup of a secret finds. *)
Inductive Lookup : Type := Found | Missing | Broken.

Record Cluster : Type := {
  transportSecret : Lookup;
  storageSecret : Lookup;
  userFails : bool;            (* CreateUser is refused *)
  credentialReadyAt : nat;     (* GetConnCredential succeeds from this call on *)
  credentialCalls : nat        (* calls of GetConnCredential made so far *)
}.

Definition lookupError (l : Lookup) : option (error string) :=
  match l with
  | Found => None
  | Missing => Some (External "not found")
  | Broken => Some (External "connection refused")
  end.

Definition countCredentialCall (k : Cluster) : Cluster :=
  {| transportSecret := transportSecret k; storageSecret := storageSecret k;
     userFails := userFails k; credentialReadyAt := credentialReadyAt k;
     credentialCalls := S (credentialCalls k) |}.

Definition hubTransporter : @Transporter string Cluster string :=
  {| CreateUser := fun _ k =>
       (if userFails k then Some (External "user refused") else None, k);
     GenerateClusterTopic := fun c =>
       {| SpecTopic := "spec"; StatusTopic := "status." ++ c; EventTopic := "event" |};
     CreateTopic := fun _ k => (None, k);
     GrantRead := fun _ _ k => (None, k);
     GrantWrite := fun _ _ k => (None, k);
     GetConnCredential := fun _ k =>
       let k' := countCredentialCall k in
       if (credentialReadyAt k <=? credentialCalls k')%nat
       then ((Some "credential", None), k')
       else ((None, Some (External "credential not ready")), k') |}.

Definition hubConstants : Constants :=
  {| GHTransportSecretName := "multicluster-global-hub-transport";
     DefaultNamespace := "multicluster-global-hub";
     DefaultGlobalHubKafkaUser := "global-hub-kafka-user";
     GlobalHubClusterName := "global";
     IsCommunityMode := false |}.

Definition hub : @Collaborators string Cluster string string unit unit :=
  {| consts := hubConstants;
     notFound := fun x => String.eqb x "not found";
     clientGetSecret := fun _ _ k => (lookupError (transportSecret k), k);
     rendererRender := fun k => ((tt, None), k);
     newDiscoveryClient := fun k => (None, k);
     manipulateObj := fun _ _ k => (None, k);
     NewStrimziTransporter := fun _ _ k => (inl hubTransporter, k);
     NewBYOTransporter := fun _ _ k => (hubTransporter, k);
     addKafkaCRDController := fun k => (None, k);
     GetPGConnectionFromGHStorageSecret := fun k =>
       (match storageSecret k with
        | Found => (Some "postgres", None)
        | l => (None, lookupError l)
        end, k);
     GetInstallCrunchyOperator := fun _ => false;
     EnsureCrunchyPostgresSubscription := fun _ k => (None, k);
     InitPostgresByStatefulset := fun _ k => ((Some "postgres-statefulset", None), k);
     EnsureCrunchyPostgres := fun k => (None, k);
     GetPGConnectionFromBuildInPostgres := fun k => ((Some "postgres-crunchy", None), k);
     elapse := fun _ k => k |}.

(** The same hub with the crunchy operator, on a cluster whose built-in
    postgres never hands out a connection. *)
Definition crunchyHub : @Collaborators string Cluster string string unit unit :=
  {| consts := hubConstants;
     notFound := fun x => String.eqb x "not found";
     clientGetSecret := fun _ _ k => (lookupError (transportSecret k), k);
     rendererRender := fun k => ((tt, None), k);
     newDiscoveryClient := fun k => (None, k);
     manipulateObj := fun _ _ k => (None, k);
     NewStrimziTransporter := fun _ _ k => (inl hubTransporter, k);
     NewBYOTransporter := fun _ _ k => (hubTransporter, k);
     addKafkaCRDController := fun k => (None, k);
     GetPGConnectionFromGHStorageSecret := fun k =>
       (match storageSecret k with
        | Found => (Some "postgres", None)
        | l => (None, lookupError l)
        end, k);
     GetInstallCrunchyOperator := fun _ => true;
     EnsureCrunchyPostgresSubscription := fun _ k => (None, k);
     InitPostgresByStatefulset := fun _ k => ((Some "postgres-statefulset", None), k);
     EnsureCrunchyPostgres := fun k => (None, k);
     GetPGConnectionFromBuildInPostgres := fun k =>
       ((None, Some (External "postgres not ready")), k);
     elapse := fun _ k => k |}.

Definition hubOfHubs (metrics : bool) : @MulticlusterGlobalHub unit :=
  {| Namespace := "multicluster-global-hub"; EnableMetrics := metrics; Rest := tt |}.

(** The store before the first pass. *)
Definition fresh (k : Cluster) : @State string Cluster string string :=
  {| cluster := k; clock := 0; trace := []; KafkaInit := false;
     KafkaController := None; TransportConn := None; StorageConn := None;
     transporter := None; errorChan := [] |}.


Definition cluster0 (transport storage : Lookup) (refuseUser : bool) (readyAt : nat)
  : Cluster :=
  {| transportSecret := transport; storageSecret := storage;
     userFails := refuseUser; credentialReadyAt := readyAt; credentialCalls := 0 |}.

End Scenario.

(** ** Further observations, and collaborators that follow a script *)

Module MiddlewareObservations.

Import Time Middleware.

(** The calls of [ReconcileStorage] whose error the function returns. *)
Definition isStorageErrorCall (c : Call) : bool :=
  match c with
  | CGetPGConnectionFromGHStorageSecret | CEnsureCrunchyPostgresSubscription
  | CInitPostgresByStatefulset | CEnsureCrunchyPostgres => true
  | _ => false
  end.

(** The calls of [ReconcileStorage] when the crunchy operator is not to be
    installed, and when it is. *)
Definition isStatefulsetPathCall (c : Call) : bool :=
  match c with
  | CGetPGConnectionFromGHStorageSecret | CInitPostgresByStatefulset => true
  | _ => false
  end.

Definition isCrunchyPathCall (c : Call) : bool :=
  match c with
  | CGetPGConnectionFromGHStorageSecret | CEnsureCrunchyPostgresSubscription
  | CEnsureCrunchyPostgres | CGetPGConnectionFromBuildInPostgres
  | CLogInfo _ | CSleep _ => true
  | _ => false
  end.

(** The number of calls of [GetConnCredential] in a trace. *)
Definition credentialAttempts {X : Type} (tr : list (Call * option (error X))) : nat :=
  length (List.filter (fun ev => isGetConnCredential (fst ev)) tr).

(** The events a run added to the trace. *)
Definition added {X K Conn PGConn : Type} (s s' : @State X K Conn PGConn)
  : list (Call * option (error X)) :=
  drop (length (trace s)) (trace s').

End MiddlewareObservations.

Module ScriptedHub.

Import Time Middleware Scenario.

(** What each collaborator answers, whatever the cluster. *)
Record Script : Type := {
  renderResult : option (error string);
  discoveryResult : option (error string);
  applyResult : option (error string);
  strimziResult : option (error string);
  watcherResult : option (error string);
  crunchyOperator : bool;
  subscriptionResult : option (error string);
  statefulsetResult : option string * option (error string);
  ensureResult : option (error string);
  builtinResult : option string * option (error string)
}.

Definition scripted (sc : Script)
  : @Collaborators string Cluster string string unit unit :=
  {| consts := hubConstants;
     notFound := fun x => String.eqb x "not found";
     clientGetSecret := fun _ _ k => (lookupError (transportSecret k), k);
     rendererRender := fun k => ((tt, renderResult sc), k);
     newDiscoveryClient := fun k => (discoveryResult sc, k);
     manipulateObj := fun _ _ k => (applyResult sc, k);
     NewStrimziTransporter := fun _ _ k =>
       (match strimziResult sc with
        | Some e => inr e
        | None => inl hubTransporter
        end, k);
     NewBYOTransporter := fun _ _ k => (hubTransporter, k);
     addKafkaCRDController := fun k => (watcherResult sc, k);
     GetPGConnectionFromGHStorageSecret := fun k =>
       (match storageSecret k with
        | Found => (Some "postgres", None)
        | l => (None, lookupError l)
        end, k);
     GetInstallCrunchyOperator := fun _ => crunchyOperator sc;
     EnsureCrunchyPostgresSubscription := fun _ k => (subscriptionResult sc, k);
     InitPostgresByStatefulset := fun _ k => (statefulsetResult sc, k);
     EnsureCrunchyPostgres := fun k => (ensureResult sc, k);
     GetPGConnectionFromBuildInPostgres := fun k => (builtinResult sc, k);
     elapse := fun _ k => k |}.

(** Every collaborator succeeds; postgres comes from the statefulset. *)
Definition smooth : Script :=
  {| renderResult := None; discoveryResult := None; applyResult := None;
     strimziResult := None; watcherResult := None; crunchyOperator := false;
     subscriptionResult := None;
     statefulsetResult := (Some "postgres-statefulset", None);
     ensureResult := None;
     builtinResult := (Some "postgres-crunchy", None) |}.

Definition withWatcher (r : option (error string)) (sc : Script) : Script :=
  {| renderResult := renderResult sc; discoveryResult := discoveryResult sc;
     applyResult := applyResult sc; strimziResult := strimziResult sc;
     watcherResult := r; crunchyOperator := crunchyOperator sc;
     subscriptionResult := subscriptionResult sc;
     statefulsetResult := statefulsetResult sc; ensureResult := ensureResult sc;
     builtinResult := builtinResult sc |}.

Definition withApply (r : option (error string)) (sc : Script) : Script :=
  {| renderResult := renderResult sc; discoveryResult := discoveryResult sc;
     applyResult := r; strimziResult := strimziResult sc;
     watcherResult := watcherResult sc; crunchyOperator := crunchyOperator sc;
     subscriptionResult := subscriptionResult sc;
     statefulsetResult := statefulsetResult sc; ensureResult := ensureResult sc;
     builtinResult := builtinResult sc |}.

Definition withStatefulset (r : option string * option (error string)) (sc : Script)
  : Script :=
  {| renderResult := renderResult sc; discoveryResult := discoveryResult sc;
     applyResult := applyResult sc; strimziResult := strimziResult sc;
     watcherResult := watcherResult sc; crunchyOperator := crunchyOperator sc;
     subscriptionResult := subscriptionResult sc;
     statefulsetResult := r; ensureResult := ensureResult sc;
     builtinResult := builtinResult sc |}.


End ScriptedHub.

Module ConsumerCases.

Import Consumer ConsumerScenario.

(** A configuration of a transport type the consumer does not know. *)
Definition mqttConfig : @TransportConfig nat unit :=
  {| TransportType := "mqtt";
     KafkaConfig := {| ClusterIdentity := "cluster-x"; kafkaRest := tt |};
     Extends := None |}.

(** A database that cannot answer. *)
Definition brokenStore : @Database string Position :=
  {| transports := transports offsetStore;
     findError := Some (ErrorsNew "connection refused") |}.

Definition globalsBroken : @Globals string Position :=
  {| transportID := ""; gorm := brokenStore; allocated := 0 |}.

(** The offset store without the record of the other cluster. *)
Definition ownStore : @Database string Position :=
  {| transports :=
       [ {| Name := "status.hub1";
            Payload_ := {| ownerIdentity := Some "cluster-x"; partition := 0;
                           offset := 42 |} |};
         {| Name := "spec";
            Payload_ := {| ownerIdentity := Some "cluster-x"; partition := 1;
                           offset := 9 |} |} ];
     findError := None |}.

Definition globalsOwn : @Globals string Position :=
  {| transportID := ""; gorm := ownStore; allocated := 0 |}.

(** A consumer whose cluster identity is empty. *)
Definition consumerAnon
  : @GenericConsumer Envelope (gmap string (gmap nat string)) nat :=
  {| client := 0%nat; assembler := ∅; eventChan := []; consumeTopics := ["status"];
     clusterIdentity := ""; enableDatabaseOffset := true |}.

End ConsumerCases.

(** ** Properties of globalhub_middleware.go *)

Module MiddlewareProofs.

Import Time Middleware.

Section WithCollaborators.
Context {X K Conn PGConn MghRest Objs : Type}.
Context (env : @Collaborators X K Conn PGConn MghRest Objs).

(** C4. [detectTransportProtocol] makes one lookup, of the well-known
    secret in the well-known namespace.  It returns the bring-your-own
    protocol with a nil error exactly when the lookup finds the secret
    (returns nil), the managed protocol with a nil error exactly when the
    lookup reports not-found, and it hands any other lookup error to the
    caller as it is (next to the protocol value [SecretTransporter], which
    the caller does not read). *)
Theorem detectTransportProtocol_spec (s : @State X K Conn PGConn) :
  let name := GHTransportSecretName (consts env) in
  let ns := DefaultNamespace (consts env) in
  let lookup := fst (clientGetSecret env name ns (cluster s)) in
  let r := fst (detectTransportProtocol env s) in
  (r = (SecretTransporter, None) <-> lookup = None)
  /\ (r = (StrimziTransporter, None) <->
      exists e, lookup = Some e /\ IsNotFound (notFound env) e = true)
  /\ (forall e, lookup = Some e -> IsNotFound (notFound env) e = false ->
      r = (SecretTransporter, Some e))
  /\ trace (snd (detectTransportProtocol env s)) = (trace s ++ [(CGetSecret name ns, lookup)])%list.
Proof.
  cbv zeta. unfold detectTransportProtocol, bind, call, ret.
  destruct (clientGetSecret env _ _ (cluster s)) as [[e|] k]; cbn.
  - destruct (IsNotFound (notFound env) e) eqn:Hnf; cbn.
    + split; [|split; [|split]].
      * split; intros H; discriminate H.
      * split; [intros _; exists e; auto | reflexivity].
      * intros e' [= <-] H. congruence.
      * reflexivity.
    + split; [|split; [|split]].
      * split; intros H; discriminate H.
      * split; [intros H; discriminate H | intros (e' & [= <-] & H); congruence].
      * intros e' [= <-] _. reflexivity.
      * reflexivity.
  - split; [|split; [|split]].
    + split; reflexivity.
    + split; [intros H; discriminate H | intros (e' & H & _); discriminate H].
    + intros e' H. discriminate H.
    + reflexivity.
Qed.

Abbreviation St := (@State X K Conn PGConn).
Abbreviation Mo := (@M X K Conn PGConn).

Section Frame.

Context (p : Call -> bool).

Lemma frame_refl (s : St) : frame p s s.
Proof.
  unfold frame. repeat split; try reflexivity.
  exists []. split; [now rewrite app_nil_r | reflexivity].
Qed.

Lemma frame_trans (s1 s2 s3 : St) : frame p s1 s2 -> frame p s2 s3 -> frame p s1 s3.
Proof.
  intros (a1 & a2 & a3 & a4 & a5 & evs & a6 & a7) (b1 & b2 & b3 & b4 & b5 & evs' & b6 & b7).
  unfold frame. repeat split; try congruence.
  exists (evs ++ evs')%list. split.
  - rewrite b6, a6. now rewrite <- app_assoc.
  - rewrite forallb_app. apply andb_true_intro. split; assumption.
Qed.

Lemma respects_ret {A} (a : A) : respects (frame p) (ret a : Mo A).
Proof. intros s. apply frame_refl. Qed.

Lemma respects_bind {A B} (m : Mo A) (f : A -> Mo B) :
  respects (frame p) m -> (forall a, respects (frame p) (f a)) ->
  respects (frame p) (bind m f).
Proof.
  intros Hm Hf s. unfold bind. specialize (Hm s).
  destruct (m s) as [a s1]. eapply frame_trans; [exact Hm | apply Hf].
Qed.

Lemma respects_call {A} (c : Call) (err : A -> option (error X)) (f : K -> A * K) :
  p c = true -> respects (frame p) (call c err f : Mo A).
Proof.
  intros Hc s. unfold call. destruct (f (cluster s)) as [a k]. cbn.
  unfold frame. cbn. repeat split; try reflexivity.
  eexists. split; [reflexivity|]. cbn. now rewrite Hc.
Qed.

Lemma respects_note (c : Call) : p c = true -> respects (frame p) (note c : Mo unit).
Proof.
  intros Hc s. unfold note, frame. cbn. repeat split; try reflexivity.
  eexists. split; [reflexivity|]. cbn. now rewrite Hc.
Qed.

Lemma respects_sleep (d : Duration) :
  (forall d', p (CSleep d') = true) -> respects (frame p) (sleep env d).
Proof.
  intros Hc s. unfold sleep, frame. cbn. repeat split; try reflexivity.
  eexists. split; [reflexivity|]. cbn. now rewrite Hc.
Qed.

Lemma respects_set_transporter t :
  respects (frame p) (modify (set_transporter t) : Mo unit).
Proof. intros s. unfold frame. cbn. repeat split. exists []. now rewrite app_nil_r. Qed.

Lemma respects_gets {A} (f : St -> A) : respects (frame p) (gets f : Mo A).
Proof. intros s. apply frame_refl. Qed.

Lemma respects_pollLoop {L} (condition : L -> Mo (L * (bool * option (error X))))
    (ticks : nat) (interval remaining : Duration) (l : L) :
  (forall d', p (CSleep d') = true) ->
  (forall l, respects (frame p) (condition l)) ->
  respects (frame p) (pollLoop env ticks interval remaining condition l).
Proof.
  intros Hs Hc. revert remaining l.
  induction ticks as [|n IH]; intros remaining l; cbn [pollLoop].
  - apply respects_bind; [now apply respects_sleep | intros; apply respects_ret].
  - apply respects_bind; [now apply respects_sleep | intros _].
    apply respects_bind; [apply Hc | intros [l' [ok [e|]]]].
    + apply respects_ret.
    + destruct ok; [apply respects_ret | apply IH].
Qed.

Lemma respects_Poll {L} (condition : L -> Mo (L * (bool * option (error X))))
    (interval timeout : Duration) (immediate : bool) (l : L) :
  (forall d', p (CSleep d') = true) ->
  (forall l, respects (frame p) (condition l)) ->
  respects (frame p) (PollUntilContextTimeout env interval timeout immediate condition l).
Proof.
  intros Hs Hc. unfold PollUntilContextTimeout. destruct immediate.
  - apply respects_bind; [apply Hc | intros [l' [ok [e|]]]].
    + apply respects_ret.
    + destruct ok; [apply respects_ret | now apply respects_pollLoop].
  - now apply respects_pollLoop.
Qed.

End Frame.

Lemma frame_weaken (p q : Call -> bool) (s s' : St) :
  (forall c, p c = true -> q c = true) -> frame p s s' -> frame q s s'.
Proof.
  intros Hpq (a1 & a2 & a3 & a4 & a5 & evs & a6 & a7).
  unfold frame. repeat split; try assumption.
  exists evs. split; [assumption|].
  rewrite forallb_forall in *. intros ev Hev. apply Hpq. now apply a7.
Qed.

Ltac respects_step :=
  first
    [ apply respects_ret
    | apply respects_gets
    | apply respects_set_transporter
    | apply respects_call; reflexivity
    | apply respects_note; reflexivity
    | apply respects_sleep; reflexivity
    | apply respects_Poll; [reflexivity | intros ?]
    | apply respects_bind; [| intros ?]
    | match goal with
      | |- respects _ (match ?x with _ => _ end) => destruct x
      end ].

Lemma respects_newTransporter p mgh protocol :
  (forall b, p (CNewStrimziTransporter b) = true) ->
  (forall a b, p (CNewBYOTransporter a b) = true) ->
  respects (frame p) (newTransporter env mgh protocol).
Proof.
  intros H1 H2. unfold newTransporter. destruct protocol.
  - apply respects_call, H1.
  - apply respects_bind; [apply respects_call, H2 | intros; apply respects_ret].
Qed.

Lemma respects_renderKafkaMetricsResources p mgh :
  (forall c, isMetricsCall c = true -> p c = true) ->
  respects (frame p) (renderKafkaMetricsResources env mgh).
Proof.
  intros Hp s. eapply frame_weaken; [exact Hp|]. revert s.
  change (respects (frame isMetricsCall) (renderKafkaMetricsResources env mgh)).
  unfold renderKafkaMetricsResources. repeat respects_step.
Qed.

Lemma respects_credentialCondition trans l :
  respects (frame isPollCall) (credentialCondition env trans l).
Proof. unfold credentialCondition. repeat respects_step. Qed.

Lemma respects_ReconcileTransport mgh protocol :
  respects (frame isTransportCall) (ReconcileTransport env mgh protocol).
Proof.
  unfold ReconcileTransport, orReturn.
  apply respects_bind.
  { apply respects_renderKafkaMetricsResources. now intros []. }
  intros [e|]; [apply respects_ret|].
  apply respects_bind; [now apply respects_newTransporter|].
  intros [trans|e]; repeat respects_step.
Qed.

Lemma respects_storageCondition l :
  respects (frame isStorageCall) (storageCondition env l).
Proof. unfold storageCondition. repeat respects_step. Qed.

Lemma respects_ReconcileStorage mgh :
  respects (frame isStorageCall) (ReconcileStorage env mgh).
Proof.
  unfold ReconcileStorage, orReturn. repeat respects_step.
  apply respects_storageCondition.
Qed.



(** The poll of [ReconcileTransport] calls the getter once: the closure
    returns the getter's error to the poll, which ends on it. *)
Lemma credential_poll_once (trans : @Transporter X K Conn) interval timeout l (s : St) :
  PollUntilContextTimeout env interval timeout true (credentialCondition env trans) l s =
  let user := DefaultGlobalHubKafkaUser (consts env) in
  let '((conn, err), k') := GetConnCredential trans user (cluster s) in
  let s' := set_trace (trace s ++ [(CGetConnCredential user, err)]) (set_cluster k' s) in
  match err with
  | Some e =>
      (((conn, err), Some e),
       set_trace
         (trace s' ++
            [(CLogInfo "waiting the kafka connection credential to be ready...", None)])
         s')
  | None => (((conn, None), None), s')
  end.
Proof.
  unfold PollUntilContextTimeout, credentialCondition, bind, call, note, ret.
  destruct (GetConnCredential trans _ (cluster s)) as [[conn [e|]] k']; reflexivity.
Qed.



(** *** Counting installations *)

Lemma installs_app (tr1 tr2 : list (@Event X)) :
  installs (tr1 ++ tr2) = (installs tr1 + installs tr2)%nat.
Proof. unfold installs. now rewrite List.filter_app, length_app. Qed.

Lemma installs_none (p : Call -> bool) (evs : list (@Event X)) :
  (forall c, p c = true -> isAddKafkaCRDController c = false) ->
  forallb (fun ev => p (fst ev)) evs = true -> installs evs = 0%nat.
Proof.
  intros Hp Hall. unfold installs.
  induction evs as [|[c e] evs IH]; [reflexivity|].
  cbn in Hall. apply andb_prop in Hall as [Hc Hevs]. cbn.
  specialize (Hp c Hc). destruct c; try discriminate Hp; cbn; auto.
Qed.

Lemma frame_installs (p : Call -> bool) (s s' : St) :
  (forall c, p c = true -> isAddKafkaCRDController c = false) ->
  frame p s s' -> installs (trace s') = installs (trace s).
Proof.
  intros Hp (_ & _ & _ & _ & _ & evs & -> & Hall).
  rewrite installs_app, (installs_none p evs Hp Hall). lia.
Qed.

Lemma isStorageCall_not_install c :
  isStorageCall c = true -> isAddKafkaCRDController c = false.
Proof. now destruct c. Qed.

Lemma isTransportCall_not_install c :
  isTransportCall c = true -> isAddKafkaCRDController c = false.
Proof. now destruct c. Qed.

Lemma isGetSecret_not_install c :
  isGetSecret c = true -> isAddKafkaCRDController c = false.
Proof. now destruct c. Qed.

Lemma respects_detectTransportProtocol :
  respects (frame isGetSecret) (detectTransportProtocol env).
Proof. unfold detectTransportProtocol. repeat respects_step. Qed.

Lemma frame_taskEffect p (s s' : St) :
  (forall c, p c = true -> isAddKafkaCRDController c = false) ->
  frame p s s' -> taskEffect s s'.
Proof.
  intros Hp Hf. pose proof (frame_installs p s s' Hp Hf) as Hi.
  destruct Hf as (a1 & a2 & a3 & a4 & a5 & _).
  unfold taskEffect. split; [assumption|]. split.
  - exists []. rewrite app_nil_r. auto.
  - left. auto.
Qed.

Lemma storageTask_effect mgh (s : St) :
  let s' := snd (storageTask env mgh s) in
  taskEffect s s' /\ TransportConn s' = TransportConn s /\ KafkaInit s' = KafkaInit s.
Proof.
  cbv zeta. unfold storageTask, bind.
  pose proof (respects_ReconcileStorage mgh s) as Hf.
  pose proof (frame_installs _ _ _ isStorageCall_not_install Hf) as Hi.
  destruct (ReconcileStorage env mgh s) as [[conn e] s1].
  destruct Hf as (a1 & a2 & a3 & a4 & a5 & _). cbn in *.
  destruct e as [e|]; cbn; unfold taskEffect; cbn.
  - repeat split; try assumption.
    + exists [Some e]. rewrite a5. eauto.
    + left. auto.
  - repeat split; try assumption.
    + exists []. rewrite a5, app_nil_r. eauto.
    + left. auto.
Qed.


Lemma frame_then_taskEffect p (s s1 s2 : St) :
  (forall c, p c = true -> isAddKafkaCRDController c = false) ->
  frame p s s1 -> taskEffect s1 s2 -> taskEffect s s2.
Proof.
  intros Hp Hf (b1 & (rep & b2 & b3) & b4).
  pose proof (frame_installs p s s1 Hp Hf) as Hi.
  destruct Hf as (a1 & a2 & a3 & a4 & a5 & _).
  unfold taskEffect. rewrite <- a1, <- a2, <- a5, <- Hi. eauto 10.
Qed.

Lemma taskEffect_send (s : St) (e : error X) :
  taskEffect s (snd (send (Some e) s)).
Proof.
  unfold taskEffect. cbn. split; [reflexivity|]. split; [eauto|]. left. auto.
Qed.

Lemma taskEffect_refl (s : St) : taskEffect s s.
Proof.
  unfold taskEffect. split; [reflexivity|]. split; [|left; auto].
  exists []. rewrite app_nil_r. auto.
Qed.

Lemma taskEffect_then_check (s s1 : St) :
  taskEffect s s1 -> errorChan s1 = errorChan s ->
  taskEffect s (snd (controllerCheck s1)) /\
  StorageConn (snd (controllerCheck s1)) = StorageConn s1.
Proof.
  intros (b1 & _ & b4) Hch. unfold controllerCheck, bind, gets. cbn [fst snd].
  destruct (KafkaController s1) as [[[c|]]|] eqn:Hkc; cbn; (split; [|reflexivity]);
    unfold taskEffect; cbn; (split; [congruence|]); (split; [|exact b4]);
    rewrite Hch.
  - exists []. rewrite app_nil_r. auto.
  - eauto.
  - eauto.
Qed.

Lemma transportTask_effect mgh (s : St) :
  let s' := snd (transportTask env mgh s) in
  taskEffect s s' /\ StorageConn s' = StorageConn s.
Proof.
  cbv zeta. remember (transportTask env mgh s) as r eqn:Hr.
  unfold transportTask in Hr. unfold bind at 1 in Hr.
  pose proof (respects_detectTransportProtocol s) as Hd.
  destruct (detectTransportProtocol env s) as [[protocol err] sd]. cbn in Hd.
  assert (Hsd : StorageConn sd = StorageConn s) by apply Hd.
  assert (Hcd : errorChan sd = errorChan s) by apply Hd.
  destruct err as [e|].
  { subst r. split; [|exact Hsd].
    eapply frame_then_taskEffect; [apply isGetSecret_not_install | exact Hd |].
    apply taskEffect_send. }
  destruct protocol.
  - (* the managed branch *)
    unfold bind at 1 in Hr. unfold gets at 1 in Hr.
    destruct (KafkaInit sd) eqn:Hinit; cbn [negb] in Hr.
    + unfold bind at 1, ret at 1 in Hr. subst r.
      destruct (taskEffect_then_check s sd) as [H1 H2];
        [eapply frame_taskEffect; [apply isGetSecret_not_install | exact Hd] | exact Hcd |].
      split; [exact H1 | congruence].
    + unfold bind at 1 in Hr. unfold bind at 1 in Hr.
      pose proof (respects_ReconcileTransport mgh StrimziTransporter sd) as Ht.
      destruct (ReconcileTransport env mgh StrimziTransporter sd) as [[conn e] st].
      cbn in Ht.
      assert (Hst : StorageConn st = StorageConn sd) by apply Ht.
      assert (Hct : errorChan st = errorChan sd) by apply Ht.
      destruct e as [e|].
      { subst r. cbn. split; [|congruence].
        eapply frame_then_taskEffect; [apply isGetSecret_not_install | exact Hd |].
        eapply frame_then_taskEffect; [apply isTransportCall_not_install | exact Ht |].
        apply taskEffect_send. }
      unfold bind at 1, call at 1 in Hr.
      destruct (addKafkaCRDController env (cluster st)) as [[e|] k].
      { subst r. cbn. split; [|congruence].
        eapply frame_then_taskEffect; [apply isGetSecret_not_install | exact Hd |].
        eapply frame_then_taskEffect; [apply isTransportCall_not_install | exact Ht |].
        unfold taskEffect. cbn -[installs]. split; [reflexivity|]. split; [eauto|].
        left. split; [reflexivity|]. rewrite installs_app. cbn. lia. }
      cbn -[controllerCheck] in Hr.
      match type of Hr with
      | context [controllerCheck ?s1] => set (si := s1) in Hr
      end.
      assert (Hi : taskEffect sd si).
      { unfold taskEffect, si. cbn -[installs]. split; [apply Ht|]. split.
        - exists []. rewrite app_nil_r; auto.
        - right. split; [exact Hinit|].
          split; [reflexivity|].
          rewrite installs_app.
          rewrite (frame_installs _ _ _ isTransportCall_not_install Ht). cbn. lia. }
      destruct (taskEffect_then_check s si) as [H1 H2].
      * eapply frame_then_taskEffect; [apply isGetSecret_not_install | exact Hd | exact Hi].
      * unfold si. cbn. congruence.
      * subst r. split; [exact H1|]. rewrite H2. unfold si. cbn. congruence.
  - (* the transport secret exists *)
    unfold bind at 1 in Hr.
    pose proof (respects_ReconcileTransport mgh SecretTransporter sd) as Ht.
    destruct (ReconcileTransport env mgh SecretTransporter sd) as [[conn e] st].
    cbn in Ht.
    assert (Hst : StorageConn st = StorageConn sd) by apply Ht.
    subst r. split.
    + eapply frame_then_taskEffect; [apply isGetSecret_not_install | exact Hd |].
      eapply frame_then_taskEffect; [apply isTransportCall_not_install | exact Ht |].
      destruct e as [e|]; unfold taskEffect; cbn -[installs];
        (split; [reflexivity|]); (split; [|left; auto]).
      * eauto.
      * exists []. rewrite app_nil_r. auto.
    + destruct e; cbn; congruence.
Qed.


Lemma ReconcileMiddleware_unfold (tf : bool) mgh (s : St) :
  ReconcileMiddleware env tf mgh s =
  let s0 := set_errorChan [] s in
  let s2 :=
    if tf then snd (storageTask env mgh (snd (transportTask env mgh s0)))
    else snd (transportTask env mgh (snd (storageTask env mgh s0))) in
  (rangeErrorChan (errorChan s2), s2).
Proof.
  unfold ReconcileMiddleware, bind, modify, gets, ret. cbn.
  destruct tf.
  - destruct (transportTask env mgh (set_errorChan [] s)) as [[] s1]. cbn.
    now destruct (storageTask env mgh s1) as [[] s2].
  - destruct (storageTask env mgh (set_errorChan [] s)) as [[] s1]. cbn.
    now destruct (transportTask env mgh s1) as [[] s2].
Qed.

Lemma reported_of_effect (task : Mo unit) (s : St) :
  taskEffect s (snd (task s)) ->
  errorChan (snd (task s)) = (errorChan s ++ reported task s)%list /\
  (reported task s = [] \/ exists e, reported task s = [Some e]).
Proof.
  intros (_ & (rep & Hrep & Hcases) & _). unfold reported.
  rewrite Hrep, drop_app_length. auto.
Qed.

Lemma transportTask_secret_eq mgh (s sd st : St) conn e :
  detectTransportProtocol env s = ((SecretTransporter, None), sd) ->
  ReconcileTransport env mgh SecretTransporter sd = ((conn, e), st) ->
  transportTask env mgh s =
  (tt, set_TransportConn conn
         match e with
         | Some _ => set_errorChan (errorChan st ++ [e]) st
         | None => st
         end).
Proof.
  intros Hd Ht. unfold transportTask. unfold bind at 1. rewrite Hd.
  unfold bind at 1. rewrite Ht. now destruct e.
Qed.

Lemma transportTask_secret mgh (s sd st : St) conn e :
  detectTransportProtocol env s = ((SecretTransporter, None), sd) ->
  ReconcileTransport env mgh SecretTransporter sd = ((conn, e), st) ->
  TransportConn (snd (transportTask env mgh s)) = conn /\
  (e = None -> reported (transportTask env mgh) s = []).
Proof.
  intros Hd Ht.
  pose proof (respects_detectTransportProtocol s) as Fd. rewrite Hd in Fd.
  pose proof (respects_ReconcileTransport mgh SecretTransporter sd) as Ft.
  rewrite Ht in Ft. cbn in Fd, Ft.
  unfold reported. rewrite (transportTask_secret_eq mgh s sd st conn e Hd Ht).
  split; [reflexivity|].
  intros ->. cbn.
  destruct Fd as (_ & _ & _ & _ & Fd & _). destruct Ft as (_ & _ & _ & _ & Ft & _).
  rewrite Ft, Fd. apply drop_all.
Qed.

Lemma ReconcileMiddleware_outcome (tf : bool)
    (mgh : @MulticlusterGlobalHub MghRest) (s : St) :
  let s0 := set_errorChan [] s in
  let sT := if tf then s0 else snd (storageTask env mgh s0) in
  let sS := if tf then snd (transportTask env mgh s0) else s0 in
  let repT := reported (transportTask env mgh) sT in
  let repS := reported (storageTask env mgh) sS in
  let result := fst (ReconcileMiddleware env tf mgh s) in
  let s' := snd (ReconcileMiddleware env tf mgh s) in
  (length (errorChan s') <= errorChanCap)%nat /\
  errorChan s' = (if tf then repT ++ repS else repS ++ repT)%list /\
  ((repT ++ repS)%list <> [] ->
     RequeueAfter (fst result) = 5 * Second /\
     exists e, In (Some e) (repT ++ repS) /\
       snd result = Some (Errorf_v "middleware not ready, Error: %v" e)) /\
  ((repT ++ repS)%list = [] ->
     result = ({| Requeue := false; RequeueAfter := 0 |}, None)) /\
  (snd result = None -> (repT ++ repS)%list = []) /\
  TransportConn s' = TransportConn (snd (transportTask env mgh sT)) /\
  StorageConn s' = StorageConn (snd (storageTask env mgh sS)) /\
  (forall sd conn st,
     detectTransportProtocol env sT = ((SecretTransporter, None), sd) ->
     ReconcileTransport env mgh SecretTransporter sd = ((conn, None), st) ->
     repT = [] /\ TransportConn s' = conn).
Proof.
  cbv zeta. rewrite ReconcileMiddleware_unfold. cbv zeta. cbn [fst snd].
  set (s0 := set_errorChan [] s).
  destruct tf.
  - destruct (transportTask_effect mgh s0) as [ET ETs].
    destruct (storageTask_effect mgh (snd (transportTask env mgh s0))) as (ES & ESt & _).
    destruct (reported_of_effect _ _ ET) as [HT CT].
    destruct (reported_of_effect _ _ ES) as [HS CS].
    set (repT := reported (transportTask env mgh) s0) in *.
    set (repS := reported (storageTask env mgh) (snd (transportTask env mgh s0))) in *.
    set (s1 := snd (transportTask env mgh s0)) in *.
    set (s2 := snd (storageTask env mgh s1)) in *.
    assert (Hch : errorChan s2 = (repT ++ repS)%list) by (rewrite HS, HT; reflexivity).
    rewrite Hch.
    split; [|split; [reflexivity|split; [|split; [|split; [|split; [exact ESt|split; [reflexivity|]]]]]]].
    + unfold errorChanCap.
      destruct CT as [CT|[e CT]], CS as [CS|[e' CS]]; rewrite CT, CS; cbn; lia.
    + intros Hne.
      destruct CT as [CT|[e CT]], CS as [CS|[e' CS]]; rewrite CT, CS in *;
        cbn in *; try congruence;
        (split; [reflexivity | eexists; split; revgoals; [reflexivity | cbn; auto]]).
    + intros Hnil. now rewrite Hnil.
    + intros Hnone.
      destruct CT as [CT|[e CT]], CS as [CS|[e' CS]]; rewrite CT, CS in *;
        cbn in *; congruence.
    + intros sd conn st Hd Ht.
      destruct (transportTask_secret mgh s0 sd st conn None Hd Ht) as [H1 H2].
      split; [now apply H2 | now rewrite ESt].
  - destruct (storageTask_effect mgh s0) as (ES & ESt & _).
    destruct (transportTask_effect mgh (snd (storageTask env mgh s0))) as [ET ETs].
    destruct (reported_of_effect _ _ ET) as [HT CT].
    destruct (reported_of_effect _ _ ES) as [HS CS].
    set (repS := reported (storageTask env mgh) s0) in *.
    set (repT := reported (transportTask env mgh) (snd (storageTask env mgh s0))) in *.
    set (s1 := snd (storageTask env mgh s0)) in *.
    set (s2 := snd (transportTask env mgh s1)) in *.
    assert (Hch : errorChan s2 = (repS ++ repT)%list) by (rewrite HT, HS; reflexivity).
    rewrite Hch.
    split; [|split; [reflexivity|split; [|split; [|split; [|split; [reflexivity|split; [exact ETs|]]]]]]].
    + unfold errorChanCap.
      destruct CT as [CT|[e CT]], CS as [CS|[e' CS]]; rewrite CT, CS; cbn; lia.
    + intros Hne.
      destruct CT as [CT|[e CT]], CS as [CS|[e' CS]]; rewrite CT, CS in *;
        cbn in *; try congruence;
        (split; [reflexivity | eexists; split; revgoals; [reflexivity | cbn; auto]]).
    + intros Hnil. apply app_eq_nil in Hnil as [Hn1 Hn2]. now rewrite Hn1, Hn2.
    + intros Hnone.
      destruct CT as [CT|[e CT]], CS as [CS|[e' CS]]; rewrite CT, CS in *;
        cbn in *; congruence.
    + intros sd conn st Hd Ht.
      destruct (transportTask_secret mgh s1 sd st conn None Hd Ht) as [H1 H2].
      split; [now apply H2 | exact H1].
Qed.



(** *** The watcher across passes *)







(** *** The metric resources *)

Lemma orReturn_trace {A} (p q : Call -> bool) (m : Mo (option (error X)))
    (k : Mo (option A * option (error X))) (s : St) :
  respects (frame p) m -> respects (frame q) k ->
  exists pre post,
    trace (snd (m s)) = (trace s ++ pre)%list /\
    trace (snd (orReturn m k s)) = (trace s ++ pre ++ post)%list /\
    forallb (fun ev => p (fst ev)) pre = true /\
    forallb (fun ev => q (fst ev)) post = true.
Proof.
  intros Hm Hk. unfold orReturn, bind. specialize (Hm s).
  destruct (m s) as [[e|] s1]; destruct Hm as (_ & _ & _ & _ & _ & pre & Hpre & Hp);
    cbn [fst snd] in *.
  - exists pre, []. cbn. rewrite app_nil_r. auto.
  - specialize (Hk s1). destruct Hk as (_ & _ & _ & _ & _ & post & Hpost & Hq).
    exists pre, post. rewrite Hpost, Hpre, app_assoc. auto.
Qed.

Lemma renderKafkaMetricsResources_disabled mgh (s : St) :
  EnableMetrics mgh = false -> renderKafkaMetricsResources env mgh s = (None, s).
Proof. intros H. unfold renderKafkaMetricsResources. now rewrite H. Qed.

Lemma renderKafkaMetricsResources_enabled mgh (s : St) :
  EnableMetrics mgh = true ->
  exists e evs,
    trace (snd (renderKafkaMetricsResources env mgh s))
      = (trace s ++ (CRender, e) :: evs)%list.
Proof.
  intros H. unfold renderKafkaMetricsResources. rewrite H.
  unfold bind at 1. unfold call at 1.
  destruct (rendererRender env (cluster s)) as [[objs e] k]. cbn [snd fst].
  set (s1 := set_trace _ _).
  assert (H1 : trace s1 = (trace s ++ [(CRender, e)])%list) by reflexivity.
  destruct e as [e|].
  - exists (Some e), []. exact H1.
  - match goal with
    | |- context [snd (?m s1)] =>
        assert (Hf : frame isMetricsCall s1 (snd (m s1)))
          by (revert s1 H1; intros s1 _; generalize s1;
              change (respects (frame isMetricsCall) m); repeat respects_step)
    end.
    destruct Hf as (_ & _ & _ & _ & _ & evs & Hevs & _).
    exists None, evs. rewrite Hevs, H1, <- app_assoc. reflexivity.
Qed.

(** C8, as amended.  For either protocol, the calls of [ReconcileTransport]
    split into the metric calls (render, discovery client, apply) followed
    by the calls of the provisioning, none of which is a metric call; with
    the metrics flag off there is no metric call at all, with the flag on
    the first call renders the manifests. *)
Theorem metrics_rendered_first_for_either_protocol
    (mgh : @MulticlusterGlobalHub MghRest) (protocol : TransportProtocol) (s : St) :
  exists pre post,
    trace (snd (ReconcileTransport env mgh protocol s)) = (trace s ++ pre ++ post)%list /\
    forallb (fun ev => isMetricsCall (fst ev)) pre = true /\
    forallb (fun ev => isProvisioningCall (fst ev)) post = true /\
    (EnableMetrics mgh = false -> pre = []) /\
    (EnableMetrics mgh = true -> exists e pre', pre = (CRender, e) :: pre').
Proof.
  unfold ReconcileTransport.
  match goal with
  | |- context [orReturn ?m ?k] =>
      destruct (orReturn_trace isMetricsCall isProvisioningCall m k s)
        as (pre & post & Hpre & Hrun & Hp & Hq)
  end.
  - now apply respects_renderKafkaMetricsResources.
  - apply respects_bind; [now apply respects_newTransporter|].
    intros [trans|e]; repeat respects_step.
  - exists pre, post. repeat split; try assumption.
    + intros Hoff. rewrite (renderKafkaMetricsResources_disabled mgh s Hoff) in Hpre.
      cbn in Hpre. rewrite <- (app_nil_r (trace s)) in Hpre at 1.
      now apply app_inv_head in Hpre.
    + intros Hon.
      destruct (renderKafkaMetricsResources_enabled mgh s Hon) as (e & evs & He).
      rewrite He in Hpre. apply app_inv_head in Hpre. eauto.
Qed.


(** *** The transporter of the package [config] *)

Lemma transporter_renderKafkaMetricsResources mgh (s : St) :
  transporter (snd (renderKafkaMetricsResources env mgh s)) = transporter s.
Proof.
  unfold renderKafkaMetricsResources, bind, call, ret.
  destruct (EnableMetrics mgh); [|reflexivity].
  destruct (rendererRender env (cluster s)) as [[objs [e|]] k]; [reflexivity|]. cbn.
  destruct (newDiscoveryClient env k) as [[e|] k']; [reflexivity|]. cbn.
  now destruct (manipulateObj env objs mgh k') as [[e|] k''].
Qed.

Lemma newTransporter_effect mgh protocol (s : St) :
  transporter (snd (newTransporter env mgh protocol s)) = transporter s /\
  exists c e, trace (snd (newTransporter env mgh protocol s)) = (trace s ++ [(c, e)])%list.
Proof.
  unfold newTransporter, bind, call, ret. destruct protocol.
  - destruct (NewStrimziTransporter env mgh _ (cluster s)) as [r k]. cbn. eauto.
  - destruct (NewBYOTransporter env _ _ (cluster s)) as [r k]. cbn. eauto.
Qed.

(** C10, as amended.  Once the transporter is created, [ReconcileTransport]
    registers it with [SetTransporter] exactly when the run reaches the
    credential poll, whatever the poll returns: the transporter of the
    configuration is then the one created and [SetTransporter] is the last
    call.  When a call before the poll fails, the function returns that
    error and the transporter of the configuration is left as it was. *)
Theorem SetTransporter_once_poll_reached
    (mgh : @MulticlusterGlobalHub MghRest) (protocol : TransportProtocol)
    (s s1 s2 : St) (trans : @Transporter X K Conn) :
  renderKafkaMetricsResources env mgh s = (None, s1) ->
  newTransporter env mgh protocol s1 = (inl trans, s2) ->
  let run := ReconcileTransport env mgh protocol s in
  let polled :=
    existsb (fun ev => isGetConnCredential (fst ev))
      (drop (length (trace s2)) (trace (snd run))) in
  (polled = true ->
     transporter (snd run) = Some trans /\
     last (trace (snd run)) = Some (succeeded CSetTransporter)) /\
  (polled = false ->
     transporter (snd run) = transporter s /\ exists e, fst run = (None, Some e)).
Proof.
  intros Hrender Hnew. cbv zeta.
  assert (Htr : transporter s2 = transporter s).
  { pose proof (transporter_renderKafkaMetricsResources mgh s) as H1.
    destruct (newTransporter_effect mgh protocol s1) as [H2 _].
    rewrite Hrender in H1. rewrite Hnew in H2. cbn in H1, H2. congruence. }
  unfold ReconcileTransport, orReturn, bind. rewrite Hrender, Hnew.
  unfold call, ret, note, modify. cbn -[PollUntilContextTimeout Z.mul].
  destruct (CreateUser trans _ (cluster s2)) as [[e|] k3];
    cbn -[PollUntilContextTimeout Z.mul].
  { rewrite drop_app_length. cbn. split; [discriminate | eauto]. }
  destruct (CreateTopic trans _ k3) as [[e|] k4]; cbn -[PollUntilContextTimeout Z.mul].
  { rewrite <- !app_assoc, drop_app_length. cbn. split; [discriminate | eauto]. }
  destruct (GrantRead trans _ (EventTopic _) k4) as [[e|] k5];
    cbn -[PollUntilContextTimeout Z.mul].
  { rewrite <- !app_assoc, drop_app_length. cbn. split; [discriminate | eauto]. }
  destruct (GrantRead trans _ (StatusTopic _) k5) as [[e|] k6];
    cbn -[PollUntilContextTimeout Z.mul].
  { rewrite <- !app_assoc, drop_app_length. cbn. split; [discriminate | eauto]. }
  destruct (GrantWrite trans _ _ k6) as [[e|] k7]; cbn -[PollUntilContextTimeout Z.mul].
  { rewrite <- !app_assoc, drop_app_length. cbn. split; [discriminate | eauto]. }
  rewrite credential_poll_once. cbn.
  destruct (GetConnCredential trans _ k7) as [[conn [e|]] k8]; cbn;
    rewrite <- !app_assoc, drop_app_length; cbn;
    (split; [intros _; split; [reflexivity | now rewrite last_app] | discriminate]).
Qed.

End WithCollaborators.

(** ** The functions on the concrete cluster *)

Section Scenarios.

Import Scenario.

(** C2.  The credential wait on a cluster where the getter fails on its
    first call and would succeed on its second: [ReconcileTransport] returns
    the error of the first call, the clock has not advanced, the getter was
    called once and no sleep was made. *)
Theorem credential_wait_aborts_on_first_error :
  let s := fresh (cluster0 Missing Found false 2) in
  let run := ReconcileTransport hub (hubOfHubs false) StrimziTransporter s in
  fst run = (None, Some (External "credential not ready")) /\
  clock (snd run) = 0 /\
  credentialCalls (cluster (snd run)) = 1%nat /\
  existsb (fun ev => isSleep (fst ev)) (trace (snd run)) = false /\
  fst (GetConnCredential hubTransporter (DefaultGlobalHubKafkaUser hubConstants)
         (cluster (snd run)))
    = (Some "credential", None).
Proof. vm_compute. repeat split. Qed.


(** C8 as stated fails: with the metrics flag on, [ReconcileTransport] on
    the bring-your-own path renders and applies the metric resources. *)
Lemma byo_path_renders_metrics :
  let s := fresh (cluster0 Found Found false 0) in
  let run := ReconcileTransport hub (hubOfHubs true) SecretTransporter s in
  fst (detectTransportProtocol hub s) = (SecretTransporter, None) /\
  In (CRender, None) (trace (snd run)) /\
  In (CManipulateObj, None) (trace (snd run)).
Proof. vm_compute. intuition. Qed.

(** C10 as stated fails: the bring-your-own transporter is created, the
    user is refused, and [SetTransporter] is never called. *)
Lemma transporter_created_but_not_registered :
  let s := fresh (cluster0 Found Found true 0) in
  let run := ReconcileTransport hub (hubOfHubs false) SecretTransporter s in
  existsb (fun ev => match fst ev with CNewBYOTransporter _ _ => true | _ => false end)
    (trace (snd run)) = true /\
  snd (fst run) = Some (External "user refused") /\
  transporter (snd run) = None /\
  existsb (fun ev => match fst ev with CSetTransporter => true | _ => false end)
    (trace (snd run)) = false.
Proof. vm_compute. repeat split. Qed.


(** The three outcomes of the detection on the concrete cluster. *)
Lemma detectTransportProtocol_spec_witness :
  fst (detectTransportProtocol hub (fresh (cluster0 Found Found false 0)))
    = (SecretTransporter, None) /\
  fst (detectTransportProtocol hub (fresh (cluster0 Missing Found false 0)))
    = (StrimziTransporter, None) /\
  fst (detectTransportProtocol hub (fresh (cluster0 Broken Found false 0)))
    = (SecretTransporter, Some (External "connection refused")).
Proof.
  split; [|split].
  - apply (proj1 (detectTransportProtocol_spec hub (fresh (cluster0 Found Found false 0)))).
    reflexivity.
  - apply (proj1 (proj2 (detectTransportProtocol_spec hub
                           (fresh (cluster0 Missing Found false 0))))).
    exists (External "not found"). split; reflexivity.
  - apply (proj1 (proj2 (proj2 (detectTransportProtocol_spec hub
                                  (fresh (cluster0 Broken Found false 0))))));
      reflexivity.
Defined.




(** With the flag off the whole trace is provisioning calls. *)
Lemma metrics_rendered_first_for_either_protocol_witness :
  exists post,
    trace (snd (ReconcileTransport hub (hubOfHubs false) SecretTransporter
                  (fresh (cluster0 Found Found false 0))))
      = post /\
    forallb (fun ev => isProvisioningCall (fst ev)) post = true.
Proof.
  destruct (metrics_rendered_first_for_either_protocol hub (hubOfHubs false)
              SecretTransporter (fresh (cluster0 Found Found false 0)))
    as (pre & post & H1 & _ & H3 & H4 & _).
  exists post. rewrite H1, (H4 eq_refl). split; [reflexivity | exact H3].
Defined.

(** The poll fails on the concrete cluster and the transporter is
    registered all the same. *)
Lemma SetTransporter_once_poll_reached_witness :
  let mgh := hubOfHubs false in
  let s := fresh (cluster0 Found Found false 2) in
  let s2 := snd (newTransporter hub mgh SecretTransporter s) in
  let run := ReconcileTransport hub mgh SecretTransporter s in
  renderKafkaMetricsResources hub mgh s = (None, s) /\
  newTransporter hub mgh SecretTransporter s = (inl hubTransporter, s2) /\
  snd (fst run) = Some (External "credential not ready") /\
  transporter (snd run) = Some hubTransporter /\
  last (trace (snd run)) = Some (succeeded CSetTransporter).
Proof.
  cbv zeta. split; [reflexivity|]. split; [reflexivity|]. split; [reflexivity|].
  apply (SetTransporter_once_poll_reached hub (hubOfHubs false) SecretTransporter
           (fresh (cluster0 Found Found false 2))
           (fresh (cluster0 Found Found false 2))
           (snd (newTransporter hub (hubOfHubs false) SecretTransporter
                   (fresh (cluster0 Found Found false 2))))
           hubTransporter eq_refl eq_refl).
  reflexivity.
Defined.

(** The poll of [ReconcileStorage], whose closure returns no error, keeps
    polling: on a cluster whose postgres never gets ready it makes 300
    attempts and returns at the deadline, ten minutes later. *)
Lemma storage_wait_polls_until_deadline :
  let s := fresh (cluster0 Found Missing false 0) in
  let run := ReconcileStorage crunchyHub (hubOfHubs false) s in
  fst run = (None, None) /\
  clock (snd run) = 10 * Minute /\
  length (List.filter
            (fun ev => match fst ev with
                       | CGetPGConnectionFromBuildInPostgres => true
                       | _ => false
                       end) (trace (snd run))) = 300%nat.
Proof. vm_compute. repeat split. Qed.

End Scenarios.

End MiddlewareProofs.

(** ** Properties of the generic consumer *)

Module ConsumerProofs.

Import Consumer.

Section WithCollaborators.

Context {X CEvent Chunk Payload Assembler Receiver Client ConfigMap JSON KafkaRest
         : Type}.
Context (env : @Collaborators X CEvent Chunk Payload Assembler Receiver Client
                 ConfigMap JSON KafkaRest).

Abbreviation Consumer_t := (@GenericConsumer CEvent Assembler Client).

Lemma receive_ack (c : Consumer_t) (event : CEvent) :
  fst (receive env c event) = ResultACK.
Proof.
  unfold receive.
  destruct (messageChunk env (assembler c) event) as [[ch|] a]; [|reflexivity].
  cbn. destruct (assemble env a ch) as [[p|] a']; [|reflexivity].
  now destruct (SetData env event p) as [event' [e|]].
Qed.

Lemma receiveAll_ack (c : Consumer_t) (events : list CEvent) :
  fst (receiveAll env c events) = repeat ResultACK (length events).
Proof.
  revert c. induction events as [|event events IH]; intros c; [reflexivity|].
  cbn [receiveAll]. pose proof (receive_ack c event) as Hack.
  destruct (receive env c event) as [r c1]. cbn in Hack. subst r.
  specialize (IH c1). destruct (receiveAll env c1 events) as [rs c2].
  cbn in *. now rewrite IH.
Qed.

(** C5. The callback of [Start] on an envelope: it returns [ResultACK] in
    every case; an envelope without chunk metadata is sent on the channel as
    it is; a chunk whose assembly is not complete is not sent; when the
    assembly completes and the data is set, the envelope carrying the
    assembled payload is sent; when setting the data fails nothing is sent.
    Over a run every envelope is acknowledged. *)
Theorem receive_handles_every_envelope (c : Consumer_t) (event : CEvent) :
  let c' := snd (receive env c event) in
  fst (receive env c event) = ResultACK /\
  (forall a,
     messageChunk env (assembler c) event = (None, a) ->
     eventChan c' = (eventChan c ++ [event])%list) /\
  (forall ch a a',
     messageChunk env (assembler c) event = (Some ch, a) ->
     assemble env a ch = (None, a') ->
     eventChan c' = eventChan c) /\
  (forall ch a payload a' event',
     messageChunk env (assembler c) event = (Some ch, a) ->
     assemble env a ch = (Some payload, a') ->
     SetData env event payload = (event', None) ->
     eventChan c' = (eventChan c ++ [event'])%list) /\
  (forall ch a payload a' event' e,
     messageChunk env (assembler c) event = (Some ch, a) ->
     assemble env a ch = (Some payload, a') ->
     SetData env event payload = (event', Some e) ->
     eventChan c' = eventChan c) /\
  (forall events,
     fst (receiveAll env c events) = repeat ResultACK (length events)).
Proof.
  cbv zeta. split; [apply receive_ack|].
  unfold receive.
  repeat split.
  - intros a H. now rewrite H.
  - intros ch a a' H1 H2. rewrite H1. cbn. now rewrite H2.
  - intros ch a p a' event' H1 H2 H3. rewrite H1. cbn. now rewrite H2, H3.
  - intros ch a p a' event' e H1 H2 H3. rewrite H1. cbn. now rewrite H2, H3.
  - apply receiveAll_ack.
Qed.

(** *** Offsets *)





(** *** The package-level [transportID] *)

Lemma construct_success receiver id topics opts
    (tc tc' : @TransportConfig Receiver KafkaRest) (g g' : @Globals X JSON)
    (c : Consumer_t) :
  construct env receiver id topics opts tc g = ((Some c, None), tc', g') ->
  transportID g' = id /\
  exists c0, clusterIdentity c0 = id /\ applyOptions c0 opts = (c, None).
Proof.
  unfold construct.
  destruct (cloudevents_NewClient env receiver) as [cl|e]; [|discriminate].
  match goal with
  | |- context [applyOptions ?c0 opts] =>
      destruct (applyOptions c0 opts) as [c1 [e|]] eqn:Hopts; [discriminate|];
      intros [= <- <- <-]; split; [reflexivity|]; exists c0; split; [reflexivity | exact Hopts]
  end.
Qed.

Lemma applyOptions_identity (opts : list (@GenericConsumeOption X CEvent Assembler Client))
    (c0 c : Consumer_t) :
  Forall (fun o => exists b, o = EnableDatabaseOffset b) opts ->
  applyOptions c0 opts = (c, None) ->
  clusterIdentity c = clusterIdentity c0.
Proof.
  intros Hall. revert c0. induction Hall as [|o opts [b ->] _ IH]; intros c0.
  - now intros [= <-].
  - cbn. intros H. now rewrite (IH _ H).
Qed.

Lemma NewGenericConsumer_success (tc tc' : @TransportConfig Receiver KafkaRest)
    topics opts (g g' : @Globals X JSON) (c : Consumer_t) :
  NewGenericConsumer env tc topics opts g = ((Some c, None), tc', g') ->
  TransportID g' = assignedIdentity env tc /\
  (Forall (fun o => exists b, o = EnableDatabaseOffset b) opts ->
   clusterIdentity c = TransportID g').
Proof.
  unfold NewGenericConsumer, assignedIdentity, TransportID.
  destruct (String.eqb (TransportType tc) (Kafka env)).
  - destruct (getConfluentReceiverProtocol env tc topics) as [r|e]; [|discriminate].
    intros H. apply construct_success in H as (H1 & c0 & H2 & H3).
    split; [exact H1|]. intros Hall.
    rewrite (applyOptions_identity opts c0 c Hall H3). congruence.
  - destruct (String.eqb (TransportType tc) (Chan env)); [|discriminate].
    match goal with
    | |- context [match ?m !! ?t with _ => _ end] => destruct (m !! t)
    end;
      intros H; apply construct_success in H as (H1 & c0 & H2 & H3);
      (split; [exact H1|]); intros Hall;
      rewrite (applyOptions_identity opts c0 c Hall H3); congruence.
Qed.

(** C9. Two successful calls of [NewGenericConsumer] in a row: after each,
    [TransportID] is the cluster identity taken for that call, so after the
    second it is the identity of the second consumer, whatever the first
    was; for a second consumer that is not a Kafka one it is
    "kafka-cluster-chan".  With the options of the package, the identity
    taken is the [clusterIdentity] of the consumer returned. *)
Theorem TransportID_follows_latest_consumer
    (tc1 tc1' tc2 tc2' : @TransportConfig Receiver KafkaRest)
    topics1 opts1 topics2 opts2 (g0 g1 g2 : @Globals X JSON) (c1 c2 : Consumer_t) :
  NewGenericConsumer env tc1 topics1 opts1 g0 = ((Some c1, None), tc1', g1) ->
  NewGenericConsumer env tc2 topics2 opts2 g1 = ((Some c2, None), tc2', g2) ->
  TransportID g1 = assignedIdentity env tc1 /\
  TransportID g2 = assignedIdentity env tc2 /\
  (TransportType tc2 <> Kafka env -> TransportID g2 = "kafka-cluster-chan") /\
  (Forall (fun o => exists b, o = EnableDatabaseOffset b) opts1 ->
   clusterIdentity c1 = TransportID g1) /\
  (Forall (fun o => exists b, o = EnableDatabaseOffset b) opts2 ->
   clusterIdentity c2 = TransportID g2).
Proof.
  intros H1 H2.
  apply NewGenericConsumer_success in H1 as [A1 B1].
  apply NewGenericConsumer_success in H2 as [A2 B2].
  repeat split; try assumption.
  intros Hne. rewrite A2. unfold assignedIdentity.
  apply String.eqb_neq in Hne. now rewrite Hne.
Qed.

End WithCollaborators.

Section Scenarios.

Import ConsumerScenario.

(** A whole message, then the two chunks of another one out of order. *)
Lemma receive_handles_every_envelope_witness :
  let c1 := snd (receive bus consumerX whole) in
  let c2 := snd (receive bus c1 (part 1 "world")) in
  let c3 := snd (receive bus c2 (part 0 "hello ")) in
  eventChan c1 = [whole] /\
  eventChan c2 = [whole] /\
  eventChan c3
    = [whole; {| env_id := "m2"; env_data := "hello world";
                 env_chunk := Some ("g", 0%nat, 2%nat) |}] /\
  fst (receiveAll bus consumerX [whole; part 1 "world"; part 0 "hello "])
    = [ResultACK; ResultACK; ResultACK].
Proof.
  cbv zeta.
  pose proof (receive_handles_every_envelope bus consumerX whole) as H1.
  pose proof (receive_handles_every_envelope bus (snd (receive bus consumerX whole))
                (part 1 "world")) as H2.
  pose proof (receive_handles_every_envelope bus
                (snd (receive bus (snd (receive bus consumerX whole)) (part 1 "world")))
                (part 0 "hello ")) as H3.
  cbv zeta in H1, H2, H3.
  destruct H1 as (_ & H1 & _ & _ & _ & HA).
  destruct H2 as (_ & _ & H2 & _).
  destruct H3 as (_ & _ & _ & H3 & _).
  split; [|split; [|split]].
  - rewrite (H1 ∅); [reflexivity | vm_compute; reflexivity].
  - erewrite H2; [rewrite (H1 ∅); [reflexivity | vm_compute; reflexivity]
                 | vm_compute; reflexivity | vm_compute; reflexivity].
  - erewrite H3;
      [ erewrite H2; [rewrite (H1 ∅); [reflexivity | vm_compute; reflexivity]
                     | vm_compute; reflexivity | vm_compute; reflexivity]
      | vm_compute; reflexivity | vm_compute; reflexivity | vm_compute; reflexivity ].
  - rewrite HA. reflexivity.
Defined.


(** A Kafka consumer of cluster-x, then an in-process one. *)
Lemma TransportID_follows_latest_consumer_witness :
  let r1 := NewGenericConsumer bus (kafkaConfig "cluster-x") ["status"]
              [EnableDatabaseOffset true] globals0 in
  let g1 := snd r1 in
  let r2 := NewGenericConsumer bus chanConfig [] [] g1 in
  let g2 := snd r2 in
  (exists c1 c2,
     fst (fst r1) = (Some c1, None) /\ fst (fst r2) = (Some c2, None) /\
     clusterIdentity c1 = "cluster-x" /\ clusterIdentity c2 = "kafka-cluster-chan") /\
  TransportID g1 = "cluster-x" /\
  TransportID g2 = "kafka-cluster-chan".
Proof.
  cbv zeta.
  destruct (NewGenericConsumer bus (kafkaConfig "cluster-x") ["status"]
              [EnableDatabaseOffset true] globals0) as [[[c1 e1] tc1'] g1] eqn:H1.
  cbn [fst snd].
  destruct (NewGenericConsumer bus chanConfig [] [] g1) as [[[c2 e2] tc2'] g2] eqn:H2.
  cbn [fst snd].
  pose proof H1 as E1. vm_compute in E1. injection E1 as <- <- <- <-.
  pose proof H2 as E2. vm_compute in E2. injection E2 as <- <- <- <-.
  destruct (TransportID_follows_latest_consumer bus _ _ _ _ _ _ _ _ _ _ _ _ _ H1 H2)
    as (A1 & _ & A3 & _).
  split; [do 2 eexists; repeat split|]. split.
  - rewrite A1. reflexivity.
  - apply A3. cbn. discriminate.
Defined.

End Scenarios.

End ConsumerProofs.

(** ** Further properties of globalhub_middleware.go *)

Module MiddlewareExtras.

Import Time Middleware MiddlewareObservations MiddlewareProofs.

Section WithCollaborators.

Context {X K Conn PGConn MghRest Objs : Type}.
Context (env : @Collaborators X K Conn PGConn MghRest Objs).

Abbreviation St := (@State X K Conn PGConn).
Abbreviation Mo := (@M X K Conn PGConn).

Ltac frame_step :=
  first
    [ rewrite andb_false_r
    | rewrite andb_true_r
    | apply respects_ret
    | apply respects_gets
    | apply respects_set_transporter
    | apply respects_call; reflexivity
    | apply respects_note; reflexivity
    | apply respects_sleep; reflexivity
    | apply respects_Poll; [reflexivity | intros ?]
    | apply respects_bind; [| intros ?]
    | match goal with
      | |- respects _ (match ?x with _ => _ end) => destruct x
      end ].

Lemma added_frame (p : Call -> bool) (s s' : St) :
  frame p s s' -> forallb (fun ev => p (fst ev)) (added s s') = true.
Proof.
  intros (_ & _ & _ & _ & _ & evs & Hevs & Hall).
  unfold added. now rewrite Hevs, drop_app_length.
Qed.

Lemma respects_storageCondition_crunchy l :
  respects (frame isCrunchyPathCall) (storageCondition env l).
Proof. unfold storageCondition. destruct l. repeat frame_step. Qed.

Lemma respects_ReconcileStorage_statefulset mgh :
  GetInstallCrunchyOperator env mgh = false ->
  respects (frame isStatefulsetPathCall) (ReconcileStorage env mgh).
Proof.
  intros H. unfold ReconcileStorage, orReturn. rewrite H. cbv zeta.
  rewrite ?andb_false_r. cbv iota. repeat frame_step.
Qed.

Lemma respects_ReconcileStorage_crunchy mgh :
  GetInstallCrunchyOperator env mgh = true ->
  respects (frame isCrunchyPathCall) (ReconcileStorage env mgh).
Proof.
  intros H. unfold ReconcileStorage, orReturn. rewrite H. cbv zeta.
  rewrite ?andb_true_r. cbv iota. repeat frame_step.
  apply respects_storageCondition_crunchy.
Qed.

(** X1: [ReconcileStorage] keeps to the path the installation asks for.
    Without the Crunchy operator the only calls it makes are the lookup of
    the storage secret and [InitPostgresByStatefulset]: no subscription, no
    Crunchy cluster, no wait.  With the operator it never calls
    [InitPostgresByStatefulset]. *)
Theorem ReconcileStorage_paths (mgh : @MulticlusterGlobalHub MghRest) (s : St) :
  let s' := snd (ReconcileStorage env mgh s) in
  (GetInstallCrunchyOperator env mgh = false ->
   forallb (fun ev => isStatefulsetPathCall (fst ev)) (added s s') = true) /\
  (GetInstallCrunchyOperator env mgh = true ->
   forallb (fun ev => isCrunchyPathCall (fst ev)) (added s s') = true).
Proof.
  cbv zeta. split; intros H; apply added_frame.
  - now apply respects_ReconcileStorage_statefulset.
  - now apply respects_ReconcileStorage_crunchy.
Qed.

(** X2: when [ReconcileStorage] returns an error it returns no
    connection, it has not waited (the clock has not moved), and the error is
    the one its last call returned, that call being the lookup of the storage
    secret, the subscription, [EnsureCrunchyPostgres] or
    [InitPostgresByStatefulset].  In particular no error comes out of the
    wait for the Crunchy connection. *)
Theorem ReconcileStorage_error_is_last_call
    (mgh : @MulticlusterGlobalHub MghRest) (s : St) (e : error X) :
  let run := ReconcileStorage env mgh s in
  snd (fst run) = Some e ->
  fst (fst run) = None /\
  clock (snd run) = clock s /\
  exists c,
    last (trace (snd run)) = Some (c, Some e) /\ isStorageErrorCall c = true.
Proof.
  cbv zeta. unfold ReconcileStorage, orReturn, bind, call, ret.
  destruct (GetPGConnectionFromGHStorageSecret env (cluster s)) as [[c0 [e0|]] k1];
    cbn -[PollUntilContextTimeout Z.mul]; [|discriminate].
  destruct (IsNotFound (notFound env) e0); cbn -[PollUntilContextTimeout Z.mul].
  2:{ intros [= <-]. rewrite last_snoc. eauto. }
  destruct (GetInstallCrunchyOperator env mgh); cbn -[PollUntilContextTimeout Z.mul].
  - destruct (EnsureCrunchyPostgresSubscription env mgh k1) as [[e1|] k2];
      cbn -[PollUntilContextTimeout Z.mul].
    { intros [= <-]. rewrite last_snoc. eauto. }
    rewrite andb_true_r.
    destruct c0 as [c0|]; cbn -[PollUntilContextTimeout Z.mul]; [discriminate|].
    destruct (EnsureCrunchyPostgres env k2) as [[e2|] k3];
      cbn -[PollUntilContextTimeout Z.mul].
    { intros [= <-]. rewrite last_snoc. eauto. }
    match goal with
    | |- context [PollUntilContextTimeout ?a ?b ?c ?d ?f ?l ?st] =>
        destruct (PollUntilContextTimeout a b c d f l st) as [[[pg x] y] s4]
    end.
    discriminate.
  - destruct (InitPostgresByStatefulset env mgh k1) as [[c1 [e1|]] k2];
      cbn -[PollUntilContextTimeout Z.mul].
    { intros [= <-]. rewrite last_snoc. eauto. }
    rewrite andb_false_r. discriminate.
Qed.

(** *** The metric resources *)

(** X3: [renderKafkaMetricsResources] fails only with metrics
    enabled, and then the last call made is the rendering, the discovery
    client or the apply that failed; the error returned wraps that call's
    error with [%w], so it is a not-found error exactly when the cause is.
    When it succeeds, no call it made had failed. *)
Theorem renderKafkaMetricsResources_error_cause
    (mgh : @MulticlusterGlobalHub MghRest) (s : St) :
  let run := renderKafkaMetricsResources env mgh s in
  (forall e,
     fst run = Some e ->
     EnableMetrics mgh = true /\
     exists c e0,
       last (trace (snd run)) = Some (c, Some e0) /\ isMetricsCall c = true /\
       forall nf, IsNotFound nf e = IsNotFound nf e0) /\
  (fst run = None ->
   forallb (fun ev => match snd ev with None => true | Some _ => false end)
     (added s (snd run)) = true).
Proof.
  cbv zeta. unfold renderKafkaMetricsResources, bind, call, ret, added.
  destruct (EnableMetrics mgh).
  2:{ split; [discriminate|]. intros _. now rewrite drop_all. }
  destruct (rendererRender env (cluster s)) as [[objs [e1|]] k1]; cbn.
  { split; [|discriminate]. intros e [= <-]. split; [reflexivity|].
    rewrite last_snoc. eauto 6. }
  destruct (newDiscoveryClient env k1) as [[e2|] k2]; cbn.
  { split; [|discriminate]. intros e [= <-]. split; [reflexivity|].
    rewrite last_snoc. eauto 6. }
  destruct (manipulateObj env objs mgh k2) as [[e3|] k3]; cbn.
  { split; [|discriminate]. intros e [= <-]. split; [reflexivity|].
    rewrite last_snoc. eauto 6. }
  split; [discriminate|]. intros _.
  now rewrite <- !app_assoc, drop_app_length.
Qed.

(** *** The credential wait *)

Lemma clock_renderKafkaMetricsResources mgh (s : St) :
  clock (snd (renderKafkaMetricsResources env mgh s)) = clock s.
Proof.
  unfold renderKafkaMetricsResources, bind, call, ret.
  destruct (EnableMetrics mgh); [|reflexivity].
  destruct (rendererRender env (cluster s)) as [[objs [e|]] k]; [reflexivity|]. cbn.
  destruct (newDiscoveryClient env k) as [[e|] k']; [reflexivity|]. cbn.
  now destruct (manipulateObj env objs mgh k') as [[e|] k''].
Qed.

Lemma newTransporter_step mgh protocol (s : St) :
  clock (snd (newTransporter env mgh protocol s)) = clock s /\
  exists c e,
    trace (snd (newTransporter env mgh protocol s)) = (trace s ++ [(c, e)])%list /\
    isGetConnCredential c = false /\ isSleep c = false.
Proof.
  unfold newTransporter, bind, call, ret. destruct protocol.
  - destruct (NewStrimziTransporter env mgh _ (cluster s)) as [r k]. cbn. eauto 6.
  - destruct (NewBYOTransporter env _ _ (cluster s)) as [r k]. cbn. eauto 6.
Qed.

Lemma credentialAttempts_app (tr1 tr2 : list (@Event X)) :
  credentialAttempts (tr1 ++ tr2) = (credentialAttempts tr1 + credentialAttempts tr2)%nat.
Proof. unfold credentialAttempts. now rewrite List.filter_app, length_app. Qed.

Lemma metrics_calls_quiet (evs : list (@Event X)) :
  forallb (fun ev => isMetricsCall (fst ev)) evs = true ->
  credentialAttempts evs = 0%nat /\
  forallb (fun ev => negb (isSleep (fst ev))) evs = true.
Proof.
  induction evs as [|[c e] evs IH]; [now split|].
  cbn. intros H. apply andb_prop in H as [Hc Hevs].
  destruct (IH Hevs) as [IH1 IH2]. unfold credentialAttempts in *. cbn.
  destruct c; try discriminate Hc; cbn; auto.
Qed.

(** X4: [ReconcileTransport] never sleeps: whatever the
    collaborators answer, the clock is where it was, the connection
    credential is asked for at most once, and no wait between two attempts
    takes place. *)
Theorem ReconcileTransport_never_waits
    (mgh : @MulticlusterGlobalHub MghRest) (protocol : TransportProtocol) (s : St) :
  let s' := snd (ReconcileTransport env mgh protocol s) in
  clock s' = clock s /\
  (credentialAttempts (added s s') <= 1)%nat /\
  forallb (fun ev => negb (isSleep (fst ev))) (added s s') = true.
Proof.
  cbv zeta. remember (ReconcileTransport env mgh protocol s) as r eqn:Hr.
  unfold ReconcileTransport, orReturn in Hr. unfold bind at 1 in Hr.
  pose proof (clock_renderKafkaMetricsResources mgh s) as Hc1.
  pose proof (respects_renderKafkaMetricsResources env isMetricsCall mgh
                (fun c H => H) s) as Hf.
  destruct (renderKafkaMetricsResources env mgh s) as [[e|] s1]; cbn [fst snd] in *;
    destruct Hf as (_ & _ & _ & _ & _ & pre & Hpre & Hall);
    destruct (metrics_calls_quiet pre Hall) as [Q1 Q2].
  { subst r. unfold added, ret. cbn [fst snd]. rewrite Hpre, drop_app_length, Q1.
    auto with arith. }
  unfold bind at 1 in Hr.
  destruct (newTransporter_step mgh protocol s1) as (Hc2 & c & ec & Htr & G1 & G2).
  destruct (newTransporter env mgh protocol s1) as [[trans|e] s2]; cbn [fst snd] in *.
  2:{ subst r. unfold added, ret. cbn [fst snd].
      rewrite Htr, Hpre, <- app_assoc, drop_app_length.
      split; [congruence|]. split.
      - rewrite credentialAttempts_app, Q1. unfold credentialAttempts. cbn.
        rewrite G1. cbn. lia.
      - rewrite forallb_app. apply andb_true_intro. split; [exact Q2|].
        cbn. now rewrite G2. }
  assert (Hfin : forall (s3 : St) l,
             clock s3 = clock s2 -> trace s3 = (trace s2 ++ l)%list ->
             (credentialAttempts l <= 1)%nat ->
             forallb (fun ev => negb (isSleep (fst ev))) l = true ->
             clock s3 = clock s /\
             (credentialAttempts (added s s3) <= 1)%nat /\
             forallb (fun ev => negb (isSleep (fst ev))) (added s s3) = true).
  { intros s3 l E1 E2 E3 E4. split; [congruence|].
    unfold added. rewrite E2, Htr, Hpre, <- !app_assoc, drop_app_length.
    split.
    - rewrite !credentialAttempts_app, Q1. unfold credentialAttempts at 1. cbn.
      rewrite G1. cbn. lia.
    - rewrite forallb_app. apply andb_true_intro. split; [exact Q2|].
      cbn. rewrite G2. exact E4. }
  unfold bind, call, ret, note, modify in Hr. cbn -[PollUntilContextTimeout Z.mul] in Hr.
  destruct (CreateUser trans _ (cluster s2)) as [[e|] k3];
    cbn -[PollUntilContextTimeout Z.mul] in Hr.
  { subst r. eapply Hfin; [reflexivity | reflexivity | cbn; lia | reflexivity]. }
  destruct (CreateTopic trans _ k3) as [[e|] k4]; cbn -[PollUntilContextTimeout Z.mul] in Hr.
  { subst r. eapply Hfin; [reflexivity | cbn; rewrite <- !app_assoc; reflexivity
                          | cbn; lia | reflexivity]. }
  destruct (GrantRead trans _ (EventTopic _) k4) as [[e|] k5];
    cbn -[PollUntilContextTimeout Z.mul] in Hr.
  { subst r. eapply Hfin; [reflexivity | cbn; rewrite <- !app_assoc; reflexivity
                          | cbn; lia | reflexivity]. }
  destruct (GrantRead trans _ (StatusTopic _) k5) as [[e|] k6];
    cbn -[PollUntilContextTimeout Z.mul] in Hr.
  { subst r. eapply Hfin; [reflexivity | cbn; rewrite <- !app_assoc; reflexivity
                          | cbn; lia | reflexivity]. }
  destruct (GrantWrite trans _ _ k6) as [[e|] k7];
    cbn -[PollUntilContextTimeout Z.mul] in Hr.
  { subst r. eapply Hfin; [reflexivity | cbn; rewrite <- !app_assoc; reflexivity
                          | cbn; lia | reflexivity]. }
  rewrite credential_poll_once in Hr. cbn in Hr.
  destruct (GetConnCredential trans _ k7) as [[conn [e|]] k8]; cbn in Hr; subst r;
    (eapply Hfin; [reflexivity | cbn; rewrite <- !app_assoc; reflexivity
                  | cbn; lia | reflexivity]).
Qed.

(** *** What the two goroutines store *)



Lemma detect_frame (s sd : St) r :
  detectTransportProtocol env s = (r, sd) ->
  KafkaInit sd = KafkaInit s /\ KafkaController sd = KafkaController s /\
  TransportConn sd = TransportConn s /\ errorChan sd = errorChan s /\
  installs (trace sd) = installs (trace s).
Proof.
  intros Hd. pose proof (respects_detectTransportProtocol env s) as F.
  pose proof (frame_installs _ _ _ isGetSecret_not_install F) as I.
  rewrite Hd in F, I. cbn in F, I. destruct F as (F1 & F2 & F3 & _ & F5 & _). auto.
Qed.



(** X7: on the managed path the credential
    [ReconcileTransport] returns is never stored: after the transport task
    [TransportConn] is either what it was or the connection the Kafka
    controller holds. *)
Theorem managed_path_discards_credential
    (mgh : @MulticlusterGlobalHub MghRest) (s sd : St) :
  detectTransportProtocol env s = ((StrimziTransporter, None), sd) ->
  let s' := snd (transportTask env mgh s) in
  TransportConn s' = TransportConn s \/
  exists c, KafkaController s = Some {| conn := Some c |} /\ TransportConn s' = Some c.
Proof.
  intros Hd. cbv zeta. destruct (detect_frame s sd _ Hd) as (F1 & F2 & F3 & _).
  assert (Hcheck : forall s1 : St,
             KafkaController s1 = KafkaController s ->
             TransportConn s1 = TransportConn s ->
             TransportConn (snd (controllerCheck s1)) = TransportConn s \/
             exists c, KafkaController s = Some {| conn := Some c |} /\
                       TransportConn (snd (controllerCheck s1)) = Some c).
  { intros s1 E1 E2. unfold controllerCheck, bind, gets. cbn [fst snd].
    rewrite E1. destruct (KafkaController s) as [[[c|]]|]; cbn; eauto. }
  remember (transportTask env mgh s) as r eqn:Hr.
  unfold transportTask in Hr. unfold bind at 1 in Hr. rewrite Hd in Hr.
  unfold bind at 1 in Hr. unfold gets at 1 in Hr.
  destruct (KafkaInit sd); cbn [negb] in Hr.
  - unfold bind at 1, ret at 1 in Hr. subst r. now apply Hcheck.
  - unfold bind at 1 in Hr. unfold bind at 1 in Hr.
    pose proof (respects_ReconcileTransport env mgh StrimziTransporter sd) as Ht.
    destruct (ReconcileTransport env mgh StrimziTransporter sd) as [[conn e] st].
    destruct Ht as (_ & T2 & T3 & _). cbn in T2, T3.
    destruct e as [e|].
    { subst r. cbn. left. congruence. }
    unfold bind at 1, call at 1 in Hr.
    destruct (addKafkaCRDController env (cluster st)) as [[e|] k].
    { subst r. cbn. left. congruence. }
    cbn -[controllerCheck] in Hr. subst r. cbn [snd].
    apply Hcheck; cbn; congruence.
Qed.

(** X8: on the managed path with the watcher not yet installed
    and [ReconcileTransport] successful, [KafkaInit] becomes true exactly
    when [addKafkaCRDController] succeeds.  When it fails, its error is the
    one error the task reports, nothing counts as installed, and
    [TransportConn] is left as it was. *)
Theorem watcher_installation_sets_KafkaInit
    (mgh : @MulticlusterGlobalHub MghRest) (s sd st : St)
    (conn : option Conn) (err : option (error X)) (k : K) :
  detectTransportProtocol env s = ((StrimziTransporter, None), sd) ->
  KafkaInit s = false ->
  ReconcileTransport env mgh StrimziTransporter sd = ((conn, None), st) ->
  addKafkaCRDController env (cluster st) = (err, k) ->
  let s' := snd (transportTask env mgh s) in
  (KafkaInit s' = true <-> err = None) /\
  installs (trace s')
    = (installs (trace s) + match err with None => 1 | Some _ => 0 end)%nat /\
  (forall e, err = Some e ->
     reported (transportTask env mgh) s = [Some e] /\
     TransportConn s' = TransportConn s).
Proof.
  intros Hd Hinit Ht Hk. cbv zeta.
  destruct (detect_frame s sd _ Hd) as (F1 & F2 & F3 & F4 & F5).
  pose proof (respects_ReconcileTransport env mgh StrimziTransporter sd) as Fr.
  pose proof (frame_installs _ _ _ isTransportCall_not_install Fr) as Ir.
  rewrite Ht in Fr, Ir. cbn in Fr, Ir.
  destruct Fr as (T1 & T2 & T3 & _ & T5 & _).
  assert (Heq : transportTask env mgh s =
                match err with
                | Some e =>
                    (tt, set_errorChan
                           (errorChan st ++ [Some e])
                           (set_trace (trace st ++ [(CAddKafkaCRDController, err)])
                              (set_cluster k st)))
                | None =>
                    controllerCheck
                      (set_KafkaInit true
                         (set_trace (trace st ++ [(CAddKafkaCRDController, None)])
                            (set_cluster k st)))
                end).
  { unfold transportTask. unfold bind at 1. rewrite Hd.
    unfold bind at 1. unfold gets at 1. rewrite F1, Hinit. cbn [negb].
    unfold bind at 1. unfold bind at 1. rewrite Ht.
    unfold bind at 1, call at 1. rewrite Hk.
    destruct err as [e|]; reflexivity. }
  rewrite Heq. unfold reported. rewrite Heq.
  destruct err as [e|]; cbn -[installs].
  - split; [split; [congruence | discriminate]|]. split.
    + rewrite installs_app. cbn. lia.
    + intros e' [= <-]. split; [|congruence].
      rewrite T5, F4. apply drop_app_length.
  - unfold controllerCheck, bind, gets. cbn [fst snd KafkaController set_KafkaInit
                                             set_trace set_cluster].
    destruct (KafkaController st) as [[[c|]]|]; cbn -[installs];
      (split; [split; reflexivity|]); (split; [|discriminate]);
      rewrite installs_app; cbn; lia.
Qed.

(** X9: when the lookup of the transport secret fails with an
    error other than not-found, the transport task reports that error and
    does nothing else: its only call is the lookup.  The pass asks for a
    requeue after five seconds with an error, and leaves [TransportConn] and
    [KafkaInit] as they were. *)
Theorem detection_failure_stops_transport_task (tf : bool)
    (mgh : @MulticlusterGlobalHub MghRest) (s sd : St)
    (protocol : TransportProtocol) (e : error X) :
  let s0 := set_errorChan [] s in
  let sT := if tf then s0 else snd (storageTask env mgh s0) in
  let run := ReconcileMiddleware env tf mgh s in
  detectTransportProtocol env sT = ((protocol, Some e), sd) ->
  transportTask env mgh sT = (tt, set_errorChan (errorChan sd ++ [Some e]) sd) /\
  added sT sd
    = [(CGetSecret (GHTransportSecretName (consts env)) (DefaultNamespace (consts env)),
        Some e)] /\
  RequeueAfter (fst (fst run)) = 5 * Second /\
  snd (fst run) <> None /\
  TransportConn (snd run) = TransportConn s /\
  KafkaInit (snd run) = KafkaInit s.
Proof.
  intros s0 sT run Hd.
  assert (Heq : transportTask env mgh sT
                = (tt, set_errorChan (errorChan sd ++ [Some e]) sd)).
  { unfold transportTask. unfold bind at 1. now rewrite Hd. }
  assert (Hadd : added sT sd
                 = [(CGetSecret (GHTransportSecretName (consts env))
                       (DefaultNamespace (consts env)), Some e)]).
  { unfold added. revert Hd. unfold detectTransportProtocol, bind, call, ret.
    destruct (clientGetSecret env _ _ (cluster sT)) as [[e0|] k0]; cbn.
    - destruct (IsNotFound (notFound env) e0); cbn; intros [= <- <- <-]; cbn.
      apply drop_app_length.
    - discriminate. }
  destruct (detect_frame sT sd _ Hd) as (F1 & _ & F3 & F4 & _).
  assert (HsT : KafkaInit sT = KafkaInit s /\ TransportConn sT = TransportConn s).
  { unfold sT. destruct tf; [now cbn|].
    destruct (storageTask_effect env mgh s0) as (_ & E2 & E3).
    rewrite E2, E3. now cbn. }
  destruct HsT as [Ti Tt].
  pose proof (ReconcileMiddleware_outcome env tf mgh s) as H. cbv zeta in H.
  fold s0 sT run in H. destruct H as (_ & _ & Hreq & _ & _ & HT & _).
  assert (Hrep : reported (transportTask env mgh) sT = [Some e]).
  { unfold reported. rewrite Heq. cbn. rewrite F4. apply drop_app_length. }
  destruct Hreq as (R1 & e' & _ & R2); [rewrite Hrep; discriminate|].
  split; [exact Heq|]. split; [exact Hadd|]. split; [exact R1|].
  split; [rewrite R2; discriminate|].
  unfold run. rewrite ReconcileMiddleware_unfold. cbv zeta. cbn [snd]. fold s0.
  clear HT R1 R2 Hrep run. destruct tf.
  - fold sT. destruct (storageTask_effect env mgh (snd (transportTask env mgh sT)))
      as (_ & E2 & E3).
    rewrite E2, E3, Heq. cbn. split; congruence.
  - fold sT. rewrite Heq. cbn. split; congruence.
Qed.

End WithCollaborators.

Section Scenarios.

Import Scenario ScriptedHub.

Lemma ReconcileStorage_paths_witness :
  let s := fresh (cluster0 Found Missing false 0) in
  let s' := snd (ReconcileStorage (scripted smooth) (hubOfHubs false) s) in
  GetInstallCrunchyOperator (scripted smooth) (hubOfHubs false) = false /\
  forallb (fun ev => isStatefulsetPathCall (fst ev)) (added s s') = true.
Proof.
  cbv zeta. split; [reflexivity|].
  apply (proj1 (ReconcileStorage_paths (scripted smooth) (hubOfHubs false)
                  (fresh (cluster0 Found Missing false 0)))).
  reflexivity.
Defined.

Lemma ReconcileStorage_error_is_last_call_witness :
  let hub' := scripted (withStatefulset (None, Some (External "no storage class")) smooth) in
  let s := fresh (cluster0 Found Missing false 0) in
  let run := ReconcileStorage hub' (hubOfHubs false) s in
  snd (fst run) = Some (External "no storage class") /\
  fst (fst run) = None /\
  clock (snd run) = clock s /\
  exists c,
    last (trace (snd run)) = Some (c, Some (External "no storage class")) /\
    isStorageErrorCall c = true.
Proof.
  cbv zeta.
  match goal with
  | |- ?A /\ _ => assert (H : A) by (vm_compute; reflexivity)
  end.
  split; [exact H|].
  exact (ReconcileStorage_error_is_last_call _ _ _ _ H).
Defined.

Lemma renderKafkaMetricsResources_error_cause_witness :
  let hub' := scripted (withApply (Some (External "not found")) smooth) in
  let run := renderKafkaMetricsResources hub' (hubOfHubs true)
               (fresh (cluster0 Found Found false 0)) in
  fst run
    = Some (Errorf_w "failed to create/update kafka objects: %w" (External "not found")) /\
  exists c e0,
    last (trace (snd run)) = Some (c, Some e0) /\ isMetricsCall c = true /\
    forall nf,
      IsNotFound nf
        (Errorf_w "failed to create/update kafka objects: %w" (External "not found"))
      = IsNotFound nf e0.
Proof.
  cbv zeta.
  match goal with
  | |- ?A /\ _ => assert (H : A) by (vm_compute; reflexivity)
  end.
  split; [exact H|].
  exact (proj2 (proj1 (renderKafkaMetricsResources_error_cause _ _ _) _ H)).
Defined.



Lemma managed_path_discards_credential_witness :
  let mgh := hubOfHubs false in
  let s := fresh (cluster0 Missing Found false 0) in
  let sd := snd (detectTransportProtocol hub s) in
  let s' := snd (transportTask hub mgh s) in
  detectTransportProtocol hub s = ((StrimziTransporter, None), sd) /\
  fst (ReconcileTransport hub mgh StrimziTransporter sd) = (Some "credential", None) /\
  (TransportConn s' = TransportConn s \/
   exists c, KafkaController s = Some {| conn := Some c |} /\ TransportConn s' = Some c).
Proof.
  cbv zeta.
  match goal with
  | |- ?A /\ _ => assert (Hd : A) by (vm_compute; reflexivity)
  end.
  split; [exact Hd|]. split; [vm_compute; reflexivity|].
  exact (managed_path_discards_credential hub (hubOfHubs false) _ _ Hd).
Defined.

Lemma watcher_installation_sets_KafkaInit_witness :
  let hub' := scripted (withWatcher (Some (External "no kafka crd")) smooth) in
  let mgh := hubOfHubs false in
  let s := fresh (cluster0 Missing Found false 0) in
  let sd := snd (detectTransportProtocol hub' s) in
  let st := snd (ReconcileTransport hub' mgh StrimziTransporter sd) in
  let s' := snd (transportTask hub' mgh s) in
  detectTransportProtocol hub' s = ((StrimziTransporter, None), sd) /\
  KafkaInit s = false /\
  ReconcileTransport hub' mgh StrimziTransporter sd = ((Some "credential", None), st) /\
  addKafkaCRDController hub' (cluster st) = (Some (External "no kafka crd"), cluster st) /\
  reported (transportTask hub' mgh) s = [Some (External "no kafka crd")] /\
  installs (trace s') = (installs (trace s) + 0)%nat.
Proof.
  cbv zeta.
  match goal with
  | |- ?A /\ _ /\ ?B /\ ?C /\ _ =>
      assert (Hd : A) by (vm_compute; reflexivity);
      assert (Ht : B) by (vm_compute; reflexivity);
      assert (Hk : C) by (vm_compute; reflexivity)
  end.
  destruct (watcher_installation_sets_KafkaInit _ _ _ _ _ _ _ _ Hd eq_refl Ht Hk)
    as (_ & H2 & H3).
  split; [exact Hd|]. split; [reflexivity|]. split; [exact Ht|]. split; [exact Hk|].
  split; [exact (proj1 (H3 _ eq_refl)) | exact H2].
Defined.

Lemma detection_failure_stops_transport_task_witness :
  let mgh := hubOfHubs false in
  let s := fresh (cluster0 Broken Found false 0) in
  let s0 := set_errorChan [] s in
  let sd := snd (detectTransportProtocol hub s0) in
  let run := ReconcileMiddleware hub true mgh s in
  detectTransportProtocol hub s0
    = ((SecretTransporter, Some (External "connection refused")), sd) /\
  RequeueAfter (fst (fst run)) = 5 * Second /\
  snd (fst run) <> None /\
  TransportConn (snd run) = TransportConn s /\
  KafkaInit (snd run) = KafkaInit s.
Proof.
  cbv zeta.
  match goal with
  | |- ?A /\ _ => assert (Hd : A) by (vm_compute; reflexivity)
  end.
  destruct (detection_failure_stops_transport_task hub true (hubOfHubs false) _ _ _ _ Hd)
    as (_ & _ & H3 & H4 & H5 & H6).
  split; [exact Hd|]. split; [exact H3|]. split; [exact H4|]. split; [exact H5 | exact H6].
Defined.

End Scenarios.

End MiddlewareExtras.

(** ** Further properties of the generic consumer *)

Module ConsumerExtras.

Import Consumer ConsumerProofs.

Section WithCollaborators.

Context {X CEvent Chunk Payload Assembler Receiver Client ConfigMap JSON KafkaRest
         : Type}.
Context (env : @Collaborators X CEvent Chunk Payload Assembler Receiver Client
                 ConfigMap JSON KafkaRest).

Abbreviation Consumer_t := (@GenericConsumer CEvent Assembler Client).
Abbreviation Option_t := (@GenericConsumeOption X CEvent Assembler Client).

(** *** Construction *)

Lemma construct_outcome receiver id topics (opts : list Option_t)
    (tc : @TransportConfig Receiver KafkaRest) (g : @Globals X JSON) :
  let r := construct env receiver id topics opts tc g in
  snd (fst r) = tc /\
  gorm (snd r) = gorm g /\ allocated (snd r) = allocated g /\
  ((exists c, fst (fst r) = (Some c, None) /\
              exists cl, cloudevents_NewClient env receiver = inl cl)
   \/ (exists e, fst (fst r) = (None, Some e) /\ snd r = g)).
Proof.
  cbv zeta. unfold construct.
  destruct (cloudevents_NewClient env receiver) as [cl|e]; [|cbn; eauto 8].
  match goal with
  | |- context [applyOptions ?c0 opts] =>
      destruct (applyOptions c0 opts) as [c1 [e|]]; cbn; eauto 10
  end.
Qed.

(** X10: [NewGenericConsumer] returns a consumer or an error,
    never both and never neither; a failed construction leaves the transport
    id as it was; the database handle is never touched; on the Kafka path the
    configuration is left as it was; and a transport type that is neither
    Kafka nor Chan gives the error naming that type, with nothing changed. *)
Theorem NewGenericConsumer_outcome (tc : @TransportConfig Receiver KafkaRest)
    (topics : list string) (opts : list Option_t) (g : @Globals X JSON) :
  let r := NewGenericConsumer env tc topics opts g in
  ((exists c, fst (fst r) = (Some c, None)) \/
   (exists e, fst (fst r) = (None, Some e) /\
              TransportID (snd r) = TransportID g)) /\
  gorm (snd r) = gorm g /\
  (TransportType tc = Kafka env -> snd (fst r) = tc /\ allocated (snd r) = allocated g) /\
  (TransportType tc <> Kafka env -> TransportType tc <> Chan env ->
   r = ((None, Some (Errorf_s "transport-type - %s is not a valid option"
                       (TransportType tc))), tc, g)).
Proof.
  cbv zeta. unfold NewGenericConsumer.
  destruct (String.eqb_spec (TransportType tc) (Kafka env)) as [Hk|Hk].
  - destruct (getConfluentReceiverProtocol env tc topics) as [rcv|e].
    + match goal with
      | |- context [construct env ?a ?b ?c ?d ?e ?f] =>
          destruct (construct_outcome a b c d e f) as (C1 & C2 & C3 & C4)
      end.
      split; [|split; [exact C2|split; [auto | intros H; contradiction]]].
      destruct C4 as [(c & Hc & _)|(e & He & Hg)]; [eauto|].
      right. exists e. split; [exact He | now rewrite Hg].
    + cbn. split; [eauto|]. split; [reflexivity|]. split; [auto|]. intros H. contradiction.
  - destruct (String.eqb_spec (TransportType tc) (Chan env)) as [Hc|Hc].
    + match goal with
      | |- context [match ?m !! ?t with _ => _ end] => destruct (m !! t)
      end;
        match goal with
        | |- context [construct env ?a ?b ?c ?d ?e ?f] =>
            destruct (construct_outcome a b c d e f) as (C1 & C2 & C3 & C4)
        end;
        (split; [|split; [exact C2|split; [intros H; contradiction
                                          | intros _ H; contradiction]]]);
        (destruct C4 as [(c & Hc' & _)|(e & He & Hg)]; [eauto|]);
        right; exists e; (split; [exact He | now rewrite Hg]).
    + cbn. split; [eauto|]. split; [reflexivity|]. split; [intros H; contradiction|].
      reflexivity.
Qed.

(** X11: on the Chan path the receiver is kept in
    [tranConfig.Extends] under the first topic, or under [event] when no
    topic is given.  An entry already there is reused and nothing is
    allocated; otherwise one fresh channel is stored under that key.  Entries
    under other keys are untouched, and the client is built on the entry of
    that key. *)
Theorem chan_receiver_keyed_by_topic (tc : @TransportConfig Receiver KafkaRest)
    (topics : list string) (opts : list Option_t) (g : @Globals X JSON) :
  TransportType tc <> Kafka env ->
  TransportType tc = Chan env ->
  let r := NewGenericConsumer env tc topics opts g in
  let topic := match topics with t :: _ => t | [] => "event" end in
  let m0 : gmap string Receiver := default ∅ (Extends tc) in
  exists m' : gmap string Receiver,
    Extends (snd (fst r)) = Some m' /\
    is_Some (m' !! topic) /\
    (forall t, t <> topic -> m' !! t = m0 !! t) /\
    (is_Some (m0 !! topic) -> m' = m0 /\ allocated (snd r) = allocated g) /\
    (m0 !! topic = None ->
     m' !! topic = Some (gochan_New env (allocated g)) /\
     allocated (snd r) = S (allocated g)) /\
    ((exists c, fst (fst r) = (Some c, None)) ->
     exists cl, cloudevents_NewClient env (m' !! topic) = inl cl).
Proof.
  intros Hk Hc. cbv zeta. unfold NewGenericConsumer.
  apply String.eqb_neq in Hk. apply String.eqb_eq in Hc. rewrite Hk, Hc.
  assert (Hm0 : match Extends tc with Some m => m | None => ∅ end
                = default ∅ (Extends tc)) by now destruct (Extends tc).
  rewrite Hm0. set (m0 := default ∅ (Extends tc)).
  set (topic := match topics with t :: _ => t | [] => "event" end).
  destruct (m0 !! topic) as [r0|] eqn:Hr0;
    match goal with
    | |- context [construct env ?a ?b ?c ?d ?e ?f] =>
        destruct (construct_outcome a b c d e f) as (C1 & C2 & C3 & C4)
    end; rewrite C1, C3; cbn [Extends set_Extends allocated].
  - exists m0. split; [reflexivity|]. split; [rewrite Hr0; eauto|].
    split; [auto|]. split; [auto|]. split; [discriminate|].
    intros (c & Hsome). destruct C4 as [(c' & _ & cl & Hcl)|(e & He & _)].
    + exists cl. exact Hcl.
    + rewrite He in Hsome. discriminate.
  - exists (<[topic := gochan_New env (allocated g)]> m0).
    split; [reflexivity|].
    split; [rewrite lookup_insert_eq; eauto|].
    split; [intros t Ht; now rewrite lookup_insert_ne|].
    split; [intros [x Hx]; discriminate Hx|].
    split; [split; [apply lookup_insert_eq | reflexivity]|].
    intros (c & Hsome). destruct C4 as [(c' & _ & cl & Hcl)|(e & He & _)].
    + exists cl. exact Hcl.
    + rewrite He in Hsome. discriminate.
Qed.

(** *** Options *)

(** X12: [applyOptions] applies the options from left to right and
    stops at the first that fails: applying [opts1 ++ opts2] is applying
    [opts1] and, if none of them failed, [opts2] to the consumer obtained. *)
Theorem applyOptions_app (c : Consumer_t) (opts1 opts2 : list Option_t) :
  applyOptions c (opts1 ++ opts2) =
  match applyOptions c opts1 with
  | (c', None) => applyOptions c' opts2
  | (c', Some e) => (c', Some e)
  end.
Proof.
  revert c. induction opts1 as [|fn opts1 IH]; intros c; [reflexivity|].
  cbn. destruct (fn c) as [c' [e|]]; [reflexivity | apply IH].
Qed.

Lemma last_cons_default {A} (l : list A) (x d d' : A) :
  List.last (x :: l) d = List.last (x :: l) d'.
Proof.
  revert x. induction l as [|y l IH]; intros x; [reflexivity|].
  change (List.last (y :: l) d = List.last (y :: l) d'). apply IH.
Qed.

Lemma applyOptions_EnableDatabaseOffset (c : Consumer_t) (bs : list bool) :
  exists c',
    applyOptions c (map EnableDatabaseOffset bs) = (c', @None (error X)) /\
    enableDatabaseOffset c' = List.last bs (enableDatabaseOffset c) /\
    client c' = client c /\ assembler c' = assembler c /\
    eventChan c' = eventChan c /\ consumeTopics c' = consumeTopics c /\
    clusterIdentity c' = clusterIdentity c.
Proof.
  revert c. induction bs as [|b bs IH]; intros c.
  - exists c. cbn. auto 10.
  - cbn [map applyOptions]. unfold EnableDatabaseOffset at 1.
    match goal with
    | |- context [applyOptions ?c1 _] => destruct (IH c1) as (c' & H1 & H2 & H3)
    end.
    exists c'. split; [exact H1|]. cbn in H2, H3. split; [|exact H3].
    rewrite H2. destruct bs as [|b0 bs]; [reflexivity|].
    change (List.last (b :: b0 :: bs) (enableDatabaseOffset c))
      with (List.last (b0 :: bs) (enableDatabaseOffset c)).
    apply last_cons_default.
Qed.

(** X14: a consumer built with [EnableDatabaseOffset] options
    starts with an empty event channel, a fresh assembler, the topics it was
    given and the identity of its transport; offset recovery is what the last
    option says, and off when no option is given. *)
Theorem new_consumer_initial_state (tc tc' : @TransportConfig Receiver KafkaRest)
    (topics : list string) (bs : list bool) (g g' : @Globals X JSON) (c : Consumer_t) :
  NewGenericConsumer env tc topics (map EnableDatabaseOffset bs) g
    = ((Some c, None), tc', g') ->
  enableDatabaseOffset c = List.last bs false /\
  eventChan c = [] /\
  consumeTopics c = topics /\
  assembler c = newMessageAssembler env /\
  clusterIdentity c = assignedIdentity env tc.
Proof.
  assert (Hcons : forall receiver id (tc0 : @TransportConfig Receiver KafkaRest) g0,
             construct env receiver id topics (map EnableDatabaseOffset bs) tc0 g0
               = ((Some c, None), tc', g') ->
             enableDatabaseOffset c = List.last bs false /\ eventChan c = [] /\
             consumeTopics c = topics /\ assembler c = newMessageAssembler env /\
             clusterIdentity c = id).
  { intros receiver id tc0 g0. unfold construct.
    destruct (cloudevents_NewClient env receiver) as [cl|e]; [|discriminate].
    match goal with
    | |- context [applyOptions ?c0 _] =>
        destruct (applyOptions_EnableDatabaseOffset c0 bs)
          as (c1 & H1 & H2 & _ & H4 & H5 & H6 & H7)
    end.
    rewrite H1. intros [= <- _ _]. cbn in *. auto. }
  unfold NewGenericConsumer, assignedIdentity.
  destruct (String.eqb (TransportType tc) (Kafka env)).
  - destruct (getConfluentReceiverProtocol env tc topics) as [r|e]; [|discriminate].
    apply Hcons.
  - destruct (String.eqb (TransportType tc) (Chan env)); [|discriminate].
    match goal with
    | |- context [match ?m !! ?t with _ => _ end] => destruct (m !! t)
    end; apply Hcons.
Qed.

(** X13: on the Kafka path, with [EnableDatabaseOffset] options
    only, [NewGenericConsumer] returns a consumer exactly when the
    configuration map, the Kafka protocol and the client can each be built;
    an error it returns is the error of the first of the three that failed,
    and comes with no consumer. *)
Theorem kafka_consumer_built_iff (tc : @TransportConfig Receiver KafkaRest)
    (topics : list string) (bs : list bool) (g : @Globals X JSON) :
  TransportType tc = Kafka env ->
  let r := NewGenericConsumer env tc topics (map EnableDatabaseOffset bs) g in
  (is_Some (fst (fst (fst r))) <->
   exists cm rcv cl,
     GetConfluentConfigMap env (KafkaConfig tc) false = inl cm /\
     kafka_confluent_New env cm topics = inl rcv /\
     cloudevents_NewClient env (Some rcv) = inl cl) /\
  (forall e,
     snd (fst (fst r)) = Some e ->
     fst (fst (fst r)) = None /\
     (GetConfluentConfigMap env (KafkaConfig tc) false = inr e \/
      (exists cm,
         GetConfluentConfigMap env (KafkaConfig tc) false = inl cm /\
         kafka_confluent_New env cm topics = inr e) \/
      (exists cm rcv,
         GetConfluentConfigMap env (KafkaConfig tc) false = inl cm /\
         kafka_confluent_New env cm topics = inl rcv /\
         cloudevents_NewClient env (Some rcv) = inr e))).
Proof.
  intros Hk. cbv zeta. unfold NewGenericConsumer, getConfluentReceiverProtocol.
  apply String.eqb_eq in Hk. rewrite Hk.
  destruct (GetConfluentConfigMap env (KafkaConfig tc) false) as [cm|e0].
  2:{ cbn. split.
      - split; [intros [x Hx]; discriminate Hx | intros (cm & rcv & cl & H & _); discriminate H].
      - intros e [= <-]. auto. }
  destruct (kafka_confluent_New env cm topics) as [rcv|e1] eqn:Hnew.
  2:{ cbn. split.
      - split; [intros [x Hx]; discriminate Hx|].
        intros (cm' & rcv & cl & [= <-] & H & _). congruence.
      - intros e [= <-]. split; [reflexivity|]. right. left. eauto. }
  unfold construct.
  destruct (cloudevents_NewClient env (Some rcv)) as [cl|e2] eqn:Hcl.
  2:{ cbn. split.
      - split; [intros [x Hx]; discriminate Hx|].
        intros (cm' & rcv' & cl & [= <-] & Hr & H). rewrite Hnew in Hr.
        injection Hr as <-. congruence.
      - intros e [= <-]. split; [reflexivity|]. right. right. eauto. }
  match goal with
  | |- context [applyOptions ?c0 _] =>
      destruct (applyOptions_EnableDatabaseOffset c0 bs) as (c1 & H1 & _)
  end.
  rewrite H1. cbn. split.
  - split; [intros _; exists cm, rcv, cl; auto | intros _; eauto].
  - intros e H. discriminate H.
Qed.

(** *** Start *)

Lemma runReceiver_started (c : Consumer_t) ctx :
  receiveContext (runReceiver env c ctx) = Some ctx.
Proof.
  unfold runReceiver. destruct (StartReceiver env (client c) ctx) as [events err].
  now destruct (receiveAll env c events) as [rs c'].
Qed.

Lemma toOffsets_error (rows : list (@Transport JSON)) acc l e :
  toOffsets env rows acc = (l, Some e) ->
  exists row, In row rows /\ jsonUnmarshal env (Payload_ row) = inr e.
Proof.
  revert acc. induction rows as [|row rows IH]; intros acc; [discriminate|].
  cbn [toOffsets]. destruct (jsonUnmarshal env (Payload_ row)) as [p|e'] eqn:Hrow.
  - intros H. destruct (IH _ H) as (row' & Hin & Hrow'). exists row'. split; [now right | exact Hrow'].
  - intros [= _ <-]. exists row. split; [now left | exact Hrow].
Qed.

(** X15: [Start] returns without starting the receiver only when
    offset recovery is enabled and the offsets cannot be read: the error
    returned is the error of the query, or the error of decoding the payload
    of a selected row.  No event is acknowledged and the consumer is
    unchanged. *)
Theorem Start_without_receiver (c : Consumer_t) (g : @Globals X JSON) :
  receiveContext (Start env c g) = None ->
  enableDatabaseOffset c = true /\
  acks (Start env c g) = [] /\
  consumer (Start env c g) = c /\
  exists e,
    startError (Start env c g) = Some e /\
    (findError (gorm g) = Some e \/
     (findError (gorm g) = None /\
      exists row,
        In row (transports (gorm g)) /\
        selected env (clusterIdentity c) row = true /\
        jsonUnmarshal env (Payload_ row) = inr e)).
Proof.
  unfold Start. destruct (enableDatabaseOffset c).
  2:{ rewrite runReceiver_started. discriminate. }
  destruct (getInitOffset env (clusterIdentity c) g) as [offsets [e|]] eqn:Hget.
  2:{ destruct (0 <? length offsets)%nat; rewrite runReceiver_started; discriminate. }
  intros _. cbn. repeat split. exists e. split; [reflexivity|].
  unfold getInitOffset in Hget. destruct (findError (gorm g)) as [e0|].
  - left. congruence.
  - right. split; [reflexivity|].
    apply toOffsets_error in Hget as (row & Hin & Hrow).
    apply filter_In in Hin as [Hin Hsel]. eauto.
Qed.

Lemma selected_empty_identity (row : @Transport JSON) :
  selected env "" row = false.
Proof.
  unfold selected. destruct (Regex.matches "^status*" (Name row)); [|reflexivity].
  destruct (jsonText env (Payload_ row) "ownerIdentity") as [owner|]; [|reflexivity].
  cbn. now destruct (String.eqb owner "").
Qed.

(** X16: a consumer whose cluster identity is empty recovers no
    offset: the query asks for a non-empty owner equal to the identity, so it
    selects no row whatever the table holds, and the receiver is started with
    the plain context. *)
Theorem Start_with_empty_identity (c : Consumer_t) (g : @Globals X JSON) :
  clusterIdentity c = "" ->
  findError (gorm g) = None ->
  getInitOffset env (clusterIdentity c) g = ([], None) /\
  receiveContext (Start env c g) = Some None.
Proof.
  intros Hid Hdb.
  assert (Hget : getInitOffset env (clusterIdentity c) g = ([], None)).
  { unfold getInitOffset. rewrite Hdb, Hid.
    assert (Hnone : List.filter (fun row => selected env "" row) (transports (gorm g)) = []).
    { induction (transports (gorm g)) as [|row rows IH]; [reflexivity|].
      cbn. now rewrite selected_empty_identity. }
    now rewrite Hnone. }
  split; [exact Hget|].
  unfold Start. destruct (enableDatabaseOffset c); [|apply runReceiver_started].
  rewrite Hget. cbn. apply runReceiver_started.
Qed.

(** X17: the offsets [getInitOffset] returns do not depend on the
    rows the query does not select: adding such a row to the table, at any
    place, changes neither the offsets nor the error. *)
Theorem getInitOffset_ignores_other_rows (id : string) (g g' : @Globals X JSON)
    (rows1 rows2 : list (@Transport JSON)) (row : @Transport JSON) :
  transports (gorm g) = (rows1 ++ rows2)%list ->
  transports (gorm g') = (rows1 ++ row :: rows2)%list ->
  findError (gorm g') = findError (gorm g) ->
  selected env id row = false ->
  getInitOffset env id g' = getInitOffset env id g.
Proof.
  intros H1 H2 H3 Hsel. unfold getInitOffset. rewrite H1, H2, H3.
  rewrite !List.filter_app. cbn. now rewrite Hsel.
Qed.

(** *** The receive loop *)

Lemma receive_effect (c : Consumer_t) (event : CEvent) :
  let c' := snd (receive env c event) in
  (eventChan c' = eventChan c \/ exists event', eventChan c' = (eventChan c ++ [event'])%list) /\
  client c' = client c /\ consumeTopics c' = consumeTopics c /\
  clusterIdentity c' = clusterIdentity c /\
  enableDatabaseOffset c' = enableDatabaseOffset c.
Proof.
  cbv zeta. unfold receive.
  destruct (messageChunk env (assembler c) event) as [[ch|] a]; cbn; [|eauto 10].
  destruct (assemble env a ch) as [[p|] a']; cbn; [|auto 10].
  destruct (SetData env event p) as [event' [e|]]; cbn; eauto 10.
Qed.

(** X18: the receive loop only appends to the event channel: what
    was queued stays, in order, at most one event is added per event
    received, and the client, the topics, the identity and the offset option
    of the consumer do not change. *)
Theorem receiveAll_only_appends (c : Consumer_t) (events : list CEvent) :
  let c' := snd (receiveAll env c events) in
  (exists forwarded,
     eventChan c' = (eventChan c ++ forwarded)%list /\
     (length forwarded <= length events)%nat) /\
  client c' = client c /\ consumeTopics c' = consumeTopics c /\
  clusterIdentity c' = clusterIdentity c /\
  enableDatabaseOffset c' = enableDatabaseOffset c.
Proof.
  cbv zeta. revert c. induction events as [|event events IH]; intros c.
  - cbn. split; [|auto]. exists []. now rewrite app_nil_r.
  - cbn [receiveAll].
    pose proof (receive_effect c event) as He. cbv zeta in He.
    destruct (receive env c event) as [r c1]. cbn [snd] in He.
    specialize (IH c1). destruct (receiveAll env c1 events) as [rs c2]. cbn [snd] in *.
    destruct He as (E1 & E2 & E3 & E4 & E5).
    destruct IH as ((fw & F1 & F2) & I2 & I3 & I4 & I5).
    split; [|repeat split; congruence].
    destruct E1 as [E1|[event' E1]]; rewrite F1, E1.
    + exists fw. split; [reflexivity | cbn; lia].
    + exists (event' :: fw). rewrite <- app_assoc. split; [reflexivity | cbn; lia].
Qed.



End WithCollaborators.

Section Scenarios.

Import ConsumerScenario ConsumerCases.

Lemma NewGenericConsumer_outcome_witness :
  NewGenericConsumer bus mqttConfig ["status"] [] globals0
  = ((None, Some (Errorf_s "transport-type - %s is not a valid option" "mqtt")),
     mqttConfig, globals0).
Proof.
  apply (proj2 (proj2 (proj2
           (NewGenericConsumer_outcome bus mqttConfig ["status"] [] globals0))));
    discriminate.
Defined.

Lemma chan_receiver_keyed_by_topic_witness :
  TransportType chanConfig <> Kafka bus /\
  TransportType chanConfig = Chan bus /\
  exists m' : gmap string nat,
    Extends (snd (fst (NewGenericConsumer bus chanConfig [] [] globals0))) = Some m' /\
    m' !! "event" = Some (gochan_New bus 0) /\
    allocated (snd (NewGenericConsumer bus chanConfig [] [] globals0)) = 1%nat.
Proof.
  assert (Hk : TransportType chanConfig <> Kafka bus) by discriminate.
  assert (Hc : TransportType chanConfig = Chan bus) by reflexivity.
  split; [exact Hk|]. split; [exact Hc|].
  destruct (chan_receiver_keyed_by_topic bus chanConfig [] [] globals0 Hk Hc)
    as (m' & H1 & _ & _ & _ & H5 & _).
  exists m'. split; [exact H1|]. apply H5. apply lookup_empty.
Defined.

Lemma new_consumer_initial_state_witness :
  exists c tc' g',
    NewGenericConsumer bus (kafkaConfig "cluster-x") ["status"]
      (map EnableDatabaseOffset [false; true]) globals0
      = ((Some c, None), tc', g') /\
    enableDatabaseOffset c = true /\
    eventChan c = [] /\
    clusterIdentity c = "cluster-x".
Proof.
  destruct (NewGenericConsumer bus (kafkaConfig "cluster-x") ["status"]
              (map EnableDatabaseOffset [false; true]) globals0)
    as [[[c e] tc'] g'] eqn:Hnew.
  assert (Hc : c <> None /\ e = None).
  { vm_compute in Hnew. injection Hnew as <- <- _ _. split; [discriminate | reflexivity]. }
  destruct Hc as [Hc ->]. destruct c as [c|]; [|contradiction].
  exists c, tc', g'. split; [reflexivity|].
  destruct (new_consumer_initial_state bus _ _ _ _ _ _ _ Hnew) as (H1 & H2 & _ & _ & H5).
  split; [exact H1|]. split; [exact H2 | exact H5].
Defined.

Lemma kafka_consumer_built_iff_witness :
  TransportType (kafkaConfig "cluster-x") = Kafka bus /\
  is_Some (fst (fst (fst (NewGenericConsumer bus (kafkaConfig "cluster-x") ["status"]
                            (map EnableDatabaseOffset [true]) globals0)))).
Proof.
  split; [reflexivity|].
  apply (proj1 (kafka_consumer_built_iff bus (kafkaConfig "cluster-x") ["status"] [true]
                  globals0 eq_refl)).
  exists tt, 0%nat, 0%nat. repeat split.
Defined.

Lemma Start_without_receiver_witness :
  receiveContext (Start bus consumerX globalsBroken) = None /\
  acks (Start bus consumerX globalsBroken) = [] /\
  exists e,
    startError (Start bus consumerX globalsBroken) = Some e /\
    (findError (gorm globalsBroken) = Some e \/
     (findError (gorm globalsBroken) = None /\
      exists row,
        In row (transports (gorm globalsBroken)) /\
        selected bus (clusterIdentity consumerX) row = true /\
        jsonUnmarshal bus (Payload_ row) = inr e)).
Proof.
  assert (H : receiveContext (Start bus consumerX globalsBroken) = None)
    by (vm_compute; reflexivity).
  split; [exact H|].
  destruct (Start_without_receiver bus consumerX globalsBroken H) as (_ & H2 & _ & H4).
  split; [exact H2 | exact H4].
Defined.

Lemma Start_with_empty_identity_witness :
  clusterIdentity consumerAnon = "" /\
  findError (gorm globals0) = None /\
  transports (gorm globals0) <> [] /\
  receiveContext (Start bus consumerAnon globals0) = Some None.
Proof.
  split; [reflexivity|]. split; [reflexivity|]. split; [discriminate|].
  exact (proj2 (Start_with_empty_identity bus consumerAnon globals0 eq_refl eq_refl)).
Defined.

Lemma getInitOffset_ignores_other_rows_witness :
  selected bus "cluster-x"
    {| Name := "status.hub2";
       Payload_ := {| ownerIdentity := Some "cluster-y"; partition := 0; offset := 7 |} |}
    = false /\
  getInitOffset bus "cluster-x" globals0 = getInitOffset bus "cluster-x" globalsOwn.
Proof.
  assert (Hsel : selected bus "cluster-x"
            {| Name := "status.hub2";
               Payload_ := {| ownerIdentity := Some "cluster-y"; partition := 0;
                              offset := 7 |} |} = false)
    by (vm_compute; reflexivity).
  split; [exact Hsel|].
  exact (getInitOffset_ignores_other_rows bus "cluster-x" globalsOwn globals0
           [ {| Name := "status.hub1";
                Payload_ := {| ownerIdentity := Some "cluster-x"; partition := 0;
                               offset := 42 |} |} ]
           [ {| Name := "spec";
                Payload_ := {| ownerIdentity := Some "cluster-x"; partition := 1;
                               offset := 9 |} |} ]
           _ eq_refl eq_refl eq_refl Hsel).
Defined.


End Scenarios.

(** *** The pattern of the offset query *)

(** X21: the pattern [^status*] of the offset query is a regular
    expression, not a glob: it accepts exactly the names that start with
    [statu]. *)
Theorem status_pattern_accepts_prefix_statu (name : string) :
  Regex.matches "^status*" name = true <-> exists rest, name = "statu" ++ rest.
Proof.
  change (Regex.matches "^status*" name)
    with (Regex.matchHere (Regex.parseItems (list_ascii_of_string "status*")) name).
  set (re := Regex.parseItems (list_ascii_of_string "status*")).
  vm_compute in re. subst re.
  split.
  - destruct name as [|c1 [|c2 [|c3 [|c4 [|c5 rest]]]]]; cbn -[Ascii.eqb];
      rewrite ?andb_false_r; try discriminate.
    intros H. repeat (apply andb_prop in H as [? H]).
    repeat match goal with
           | Hc : Ascii.eqb _ _ = true |- _ => apply Ascii.eqb_eq in Hc; subst
           end.
    exists rest. reflexivity.
  - intros [rest ->]. cbn. now destruct rest.
Qed.

End ConsumerExtras.
